(** * dio: the pull and push commands

    A shallow embedding of [cmd/pull.go] and [cmd/push.go] of the dio
    command line client.  The two commands are state-passing programs over
    a model of the local disk (files, directories, modification times and
    the per-database metadata record) that also emit, in order, the
    effects they perform (remote requests, writes, output).  Everything
    the operating system or the remote service decides is read from an
    environment record [Env]. *)

From Stdlib Require Import ZArith String Ascii List Lia.
From stdpp Require Import gmap strings list fin_maps pretty.

Local Open Scope Z_scope.

(** ** Go library functions used by the commands *)

(** [crypto/sha256]: 32-bit words are [Z] with the wrap-around written out. *)
Module SHA256.
Definition mask32 : Z := 0xffffffff.
Definition add32 (x y : Z) : Z := Z.land (x + y) mask32.
Definition rotr (x : Z) (n : Z) : Z :=
  Z.lor (Z.shiftr x n) (Z.land (Z.shiftl x (32 - n)) mask32).
Definition not32 (x : Z) : Z := Z.lxor x mask32.

(** The first [n] primes, by trial division. *)
Definition is_prime (n : Z) : bool :=
  forallb (fun d => negb (n mod Z.of_nat d =? 0)) (seq 2 (Z.to_nat n - 2)%nat).

Definition primes (n : nat) : list Z :=
  firstn n (List.filter is_prime (map Z.of_nat (seq 2 400))).

(** The integer cube root, bit by bit from bit 40 down. *)
Definition icbrt (n : Z) : Z :=
  fold_left
    (fun r b => let r' := r + Z.shiftl 1 (Z.of_nat b) in
                if r' * r' * r' <=? n then r' else r)
    (rev (seq 0 41)) 0.

(** The round constants: the first 32 bits of the fractional parts of the
    cube roots of the first 64 primes. *)
Definition _K : list Z :=
  map (fun p => Z.land (icbrt (Z.shiftl p 96)) mask32) (primes 64).

(** The initial hash value: the first 32 bits of the fractional parts of
    the square roots of the first 8 primes. *)
Definition init : list Z :=
  map (fun p => Z.land (Z.sqrt (Z.shiftl p 64)) mask32) (primes 8).

Definition word_at (l : list Z) (i : nat) : Z := nth i l 0.

(** big-endian 32-bit words of a block *)
Fixpoint words (bs : list Z) : list Z :=
  match bs with
  | a :: b :: c :: d :: r =>
      Z.lor (Z.shiftl a 24) (Z.lor (Z.shiftl b 16) (Z.lor (Z.shiftl c 8) d)) :: words r
  | _ => []
  end.

Definition be_bytes (n : nat) (x : Z) : list Z :=
  map (fun i => Z.land (Z.shiftr x (8 * Z.of_nat i)) 0xff) (rev (seq 0 n)).

(** padding: 0x80, zeros up to 56 mod 64, then the bit length on 8 bytes *)
Definition pad (msg : list Z) : list Z :=
  let len := Z.of_nat (length msg) in
  let t := (len + 1) mod 64 in
  let zeros := if Z.leb t 56 then 56 - t else 120 - t in
  msg ++ [0x80] ++ repeat 0 (Z.to_nat zeros) ++ be_bytes 8 (8 * len).

Definition sigma0 x := Z.lxor (rotr x 7) (Z.lxor (rotr x 18) (Z.shiftr x 3)).
Definition sigma1 x := Z.lxor (rotr x 17) (Z.lxor (rotr x 19) (Z.shiftr x 10)).
Definition Sigma0 x := Z.lxor (rotr x 2) (Z.lxor (rotr x 13) (rotr x 22)).
Definition Sigma1 x := Z.lxor (rotr x 6) (Z.lxor (rotr x 11) (rotr x 25)).
Definition Ch x y z := Z.lxor (Z.land x y) (Z.land (not32 x) z).
Definition Maj x y z := Z.lxor (Z.land x y) (Z.lxor (Z.land x z) (Z.land y z)).

(** message schedule: [w] holds the words computed so far *)
Fixpoint schedule (fuel : nat) (w : list Z) : list Z :=
  match fuel with
  | O => w
  | S fuel' =>
      let i := length w in
      let v := add32 (add32 (sigma1 (word_at w (i - 2))) (word_at w (i - 7)))
                     (add32 (sigma0 (word_at w (i - 15))) (word_at w (i - 16))) in
      schedule fuel' (w ++ [v])
  end.

Definition round (h : list Z) (kw : Z * Z) : list Z :=
  match h with
  | [a; b; c; d; e; f; g; hh] =>
      let t1 := add32 (add32 (add32 hh (Sigma1 e)) (add32 (Ch e f g) (fst kw))) (snd kw) in
      let t2 := add32 (Sigma0 a) (Maj a b c) in
      [add32 t1 t2; a; b; c; add32 d t1; e; f; g]
  | _ => h
  end.

Definition block (h : list Z) (chunk : list Z) : list Z :=
  let w := schedule 48 (words chunk) in
  let h' := fold_left round (combine _K w) h in
  map (fun p => add32 (fst p) (snd p)) (combine h h').

Fixpoint blocks (fuel : nat) (h : list Z) (bs : list Z) : list Z :=
  match fuel with
  | O => h
  | S fuel' =>
      match bs with
      | [] => h
      | _ => blocks fuel' (block h (firstn 64 bs)) (skipn 64 bs)
      end
  end.

Definition bytes_of_string (s : string) : list Z :=
  map (fun c => Z.of_N (N_of_ascii c)) (list_ascii_of_string s).
Definition string_of_bytes (bs : list Z) : string :=
  string_of_list_ascii (map (fun b => ascii_of_N (Z.to_N b)) bs).

Definition Sum256 (data : string) : string :=
  let p := pad (bytes_of_string data) in
  string_of_bytes (flat_map (be_bytes 4) (blocks (length p) init p)).
End SHA256.

(** [sha256.Sum256]: the 32 digest bytes of [data]. *)
Definition sha256_Sum256 (data : string) : string := SHA256.Sum256 data.
Global Arguments sha256_Sum256 : simpl never.

Definition hextable : string := "0123456789abcdef".

Definition hexdigit (n : N) : ascii :=
  match String.get (N.to_nat n) hextable with Some c => c | None => "0"%char end.

(** [hex.EncodeToString]: two lower-case digits per byte. *)
Fixpoint hex_EncodeToString (src : string) : string :=
  match src with
  | EmptyString => EmptyString
  | String c r =>
      let v := N_of_ascii c in
      String (hexdigit (N.shiftr v 4))
        (String (hexdigit (N.land v 15)) (hex_EncodeToString r))
  end.

Definition upperhex : string := "0123456789ABCDEF".

Definition upperdigit (n : N) : ascii :=
  match String.get (N.to_nat n) upperhex with Some c => c | None => "0"%char end.

Definition mem_ascii (c : ascii) (set : string) : bool :=
  existsb (Ascii.eqb c) (list_ascii_of_string set).

Definition unreserved : string :=
  "ABCDEFGHIJKLMNOPQRSTUVWXYZabcdefghijklmnopqrstuvwxyz0123456789-_.~".

(** [url.QueryEscape]: unreserved bytes stay, a space becomes [+], every
    other byte becomes [%XX]. *)
Fixpoint url_QueryEscape (s : string) : string :=
  match s with
  | EmptyString => EmptyString
  | String c r =>
      if mem_ascii c unreserved then String c (url_QueryEscape r)
      else if Ascii.eqb c " " then String "+" (url_QueryEscape r)
      else
        let v := N_of_ascii c in
        String "%" (String (upperdigit (N.shiftr v 4))
          (String (upperdigit (N.land v 15)) (url_QueryEscape r)))
  end.

(** [strings.Split] with a one-byte separator (both call sites pass one):
    the pieces between the separators, always at least one piece. *)
Fixpoint strings_Split (s : string) (sep : ascii) : list string :=
  match s with
  | EmptyString => [EmptyString]
  | String c r =>
      if Ascii.eqb c sep then EmptyString :: strings_Split r sep
      else
        match strings_Split r sep with
        | h :: t => String c h :: t
        | [] => [String c EmptyString]
        end
  end.

(** [strings.TrimLeft]: drop the leading bytes that are in [cutset]. *)
Fixpoint strings_TrimLeft (s cutset : string) : string :=
  match s with
  | EmptyString => EmptyString
  | String c r => if mem_ascii c cutset then strings_TrimLeft r cutset else s
  end.

Fixpoint string_rev (s : string) : string :=
  match s with
  | EmptyString => EmptyString
  | String c r => String.append (string_rev r) (String c EmptyString)
  end.

Definition strings_TrimRight (s cutset : string) : string :=
  string_rev (strings_TrimLeft (string_rev s) cutset).

(** [strings.Trim]: drop the bytes of [cutset] at both ends. *)
Definition strings_Trim (s cutset : string) : string :=
  strings_TrimRight (strings_TrimLeft s cutset) cutset.

(** [strings.HasPrefix] *)
Definition strings_HasPrefix (s pre : string) : bool := String.prefix pre s.

(** [filepath.Join]: the non-empty elements separated by a slash.  The
    final [Clean] of the Go function is not modelled: it is the identity
    on the paths built here from a clean relative database name. *)
Definition filepath_Join (elem : list string) : string :=
  String.concat "/" (filter (fun e => e ≠ EmptyString) elem).
Global Arguments filepath_Join : simpl never.

Fixpoint after_last_slash (acc s : string) : string :=
  match s with
  | EmptyString => acc
  | String c r =>
      if Ascii.eqb c "/" then after_last_slash r r else after_last_slash acc r
  end.

(** [filepath.Base]: the last element of the path; trailing slashes are
    removed first, the empty path gives a dot, a path of slashes a slash. *)
Definition filepath_Base (path : string) : string :=
  if decide (path = EmptyString) then "."
  else
    let p := strings_TrimRight path "/" in
    let b := after_last_slash p p in
    if decide (b = EmptyString) then "/" else b.

(** The path [s] contains a separator. *)
Fixpoint has_slash (s : string) : bool :=
  match s with
  | EmptyString => false
  | String c r => Ascii.eqb c "/" || has_slash r
  end.

(** A double quote and a line feed, as one-byte strings. *)
Definition dquote : string := String (ascii_of_nat 34) EmptyString.
Definition newline : string := String (ascii_of_nat 10) EmptyString.

(** [%d] and [%v] of [fmt.Sprintf]. *)
Definition fmt_d (z : Z) : string := pretty z.
Definition fmt_bool (b : bool) : string := if b then "true" else "false".

Definition http_StatusOK : Z := 200.
Definition http_StatusCreated : Z := 201.
Definition http_StatusNotFound : Z := 404.

(** ** Data model *)

(** Modelled from the spec: the type [metaData] is declared outside the two
    command files; the commands only use its fields [ActiveBranch],
    [Branches] and [Commits].  Section 3 of the specification gives the
    shape: branches map a name to a commit id, commits map an id to a
    [CommitInfo]. *)
Record CommitInfo := {
  ci_Parent : string;
  ci_Author : string;
  ci_Email : string;
  ci_Message : string;
  ci_Timestamp : Z;
  ci_Digest : string;
}.

(** Modelled from the spec: the metadata of a database (section 3): the
    active branch, the commit id each branch points to, and the commits. *)
Record metaData := {
  ActiveBranch : string;
  Branches : gmap string string;
  Commits : gmap string CommitInfo;
}.

Definition set_ActiveBranch (b : string) (m : metaData) : metaData :=
  {| ActiveBranch := b; Branches := Branches m; Commits := Commits m |}.

(** The package-level flag variables of the two commands. *)
Record Vars := {
  pullCmdBranch : string;
  pullCmdCommit : string;
  pushCmdBranch : string;
  pushCmdCommit : string;
  pushCmdDB : string;
  pushCmdEmail : string;
  pushCmdLicence : string;
  pushCmdMsg : string;
  pushCmdName : string;
  pushCmdForce : bool;
  pushCmdPublic : bool;
}.

(** The HTTP response of gorequest's [End]. *)
Record Response := {
  StatusCode : Z;
  Status : string;
  Header : gmap string (list string);
}.

(** [resp.Header.Get]: the first value of the key, or the empty string. *)
Definition Header_Get (resp : Response) (key : string) : string :=
  match Header resp !! key with
  | Some (v :: _) => v
  | _ => EmptyString
  end.

(** A file attached by [SendFile]. *)
Record SentFile := {
  sf_Filename : string;
  sf_Fieldname : string;
  sf_Content : string;
}.

(** The request a gorequest agent has accumulated. *)
Record Request := {
  Method : string;
  Url : string;
  ContentType : string;
  QueryData : list string;
  FileData : list SentFile;
  Errors : list string;
}.

Definition rq_Get (url : string) : Request :=
  {| Method := "GET"; Url := url; ContentType := EmptyString;
     QueryData := []; FileData := []; Errors := [] |}.

Definition rq_Post (url : string) : Request :=
  {| Method := "POST"; Url := url; ContentType := EmptyString;
     QueryData := []; FileData := []; Errors := [] |}.

Definition rq_Type (r : Request) (t : string) : Request :=
  {| Method := Method r; Url := Url r; ContentType := t;
     QueryData := QueryData r; FileData := FileData r; Errors := Errors r |}.

Definition rq_Query (r : Request) (q : string) : Request :=
  {| Method := Method r; Url := Url r; ContentType := ContentType r;
     QueryData := QueryData r ++ [q]; FileData := FileData r; Errors := Errors r |}.

(** What [End] returns: the errors, or else the response and its body
    (gorequest returns a response that is not nil whenever it returns no
    error, so the nil test of the push command always passes). *)
Inductive NetResult :=
| NetErrs (errs : list string)
| NetResp (resp : Response) (body : string).

(** The errors the commands return: an [errors.New] with its message; the
    path error of an [os] or [ioutil] call; the errors of [time.Parse] and
    of [json.Unmarshal]; the error of the validation at save time; the
    error of a failed print. *)
Inductive error :=
| errors_New (msg : string)
| PathError (op path : string)
| time_ParseError (value : string)
| json_UnmarshalError (body : string)
| InvariantViolation (db : string)
| PrintError.

(** How one [ioutil.WriteFile] ends: the file is opened with truncation,
    the data written and the file closed.  Either all of it succeeds, or
    the open fails and nothing changes, or the write stops after [n] bytes
    and the truncated file keeps what was written. *)
Inductive WriteOutcome :=
| WriteOk
| OpenFails
| ShortWrite (n : nat).

Inductive Arg :=
| AStr (s : string)
| AInt (z : Z).

(** The effects of a run, in the order they happen.  A call of the remote
    service is recorded with what it answered. *)
Inductive Event :=
| EvMetadataRequest (db : string)
| EvHTTP (req : Request) (res : NetResult)
| EvMkdirAll (path : string)
| EvWriteFile (path data : string) (o : WriteOutcome)
| EvChtimes (path : string) (atime mtime : Z)
| EvSaveMetadata (db record : string) (o : WriteOutcome)
| EvLog (msg : string)
| EvPrintf (format : string) (args : list Arg).

(** The remote service was called by an event. *)
Definition is_network (ev : Event) : bool :=
  match ev with
  | EvMetadataRequest _ | EvHTTP _ _ => true
  | _ => false
  end.

Definition network_calls (evs : list Event) : list Event := filter is_network evs.

(** The requests sent with [End], in order. *)
Definition sent_requests (evs : list Event) : list Request :=
  omap (λ ev, match ev with EvHTTP r _ => Some r | _ => None end) evs.

(** What the environment decides: configuration set outside the two
    files, the library parsers, the remote service and the disk. *)
Record Env := {
  cloud : string;
  certUser : string;
  viper_author : option string;
  viper_email : option string;
  time_Now : Z;
  time_Parse : string → option Z;
  time_Format : Z → string;
  json_Unmarshal : string → option (gmap string string);
  json_MarshalIndent : metaData → string;
  remote : Request → NetResult;
  remote_metadata : string → error + metaData;
  disk : string → WriteOutcome;
  metadata_disk : string → WriteOutcome;
  mkdir_ok : string → bool;
  chtimes_ok : string → bool;
  stdout_ok : bool;
}.

(** The local state: flag variables, regular files, directories,
    modification times, and the stored metadata record of each database. *)
Record State := {
  vars : Vars;
  fs : gmap string string;
  dirs : gset string;
  mtimes : gmap string Z;
  metadb : gmap string string;
}.

Definition set_vars (f : Vars → Vars) (s : State) : State :=
  {| vars := f (vars s); fs := fs s; dirs := dirs s; mtimes := mtimes s;
     metadb := metadb s |}.

Definition set_fs (f : gmap string string → gmap string string) (s : State) : State :=
  {| vars := vars s; fs := f (fs s); dirs := dirs s; mtimes := mtimes s;
     metadb := metadb s |}.

Definition set_dirs (f : gset string → gset string) (s : State) : State :=
  {| vars := vars s; fs := fs s; dirs := f (dirs s); mtimes := mtimes s;
     metadb := metadb s |}.

Definition set_mtimes (f : gmap string Z → gmap string Z) (s : State) : State :=
  {| vars := vars s; fs := fs s; dirs := dirs s; mtimes := f (mtimes s);
     metadb := metadb s |}.

Definition set_metadb (f : gmap string string → gmap string string) (s : State) : State :=
  {| vars := vars s; fs := fs s; dirs := dirs s; mtimes := mtimes s;
     metadb := f (metadb s) |}.

Definition with_pushCmdBranch (b : string) (v : Vars) : Vars :=
  {| pullCmdBranch := pullCmdBranch v; pullCmdCommit := pullCmdCommit v;
     pushCmdBranch := b; pushCmdCommit := pushCmdCommit v;
     pushCmdDB := pushCmdDB v; pushCmdEmail := pushCmdEmail v;
     pushCmdLicence := pushCmdLicence v; pushCmdMsg := pushCmdMsg v;
     pushCmdName := pushCmdName v; pushCmdForce := pushCmdForce v;
     pushCmdPublic := pushCmdPublic v |}.

Definition with_pushCmdCommit (c : string) (v : Vars) : Vars :=
  {| pullCmdBranch := pullCmdBranch v; pullCmdCommit := pullCmdCommit v;
     pushCmdBranch := pushCmdBranch v; pushCmdCommit := c;
     pushCmdDB := pushCmdDB v; pushCmdEmail := pushCmdEmail v;
     pushCmdLicence := pushCmdLicence v; pushCmdMsg := pushCmdMsg v;
     pushCmdName := pushCmdName v; pushCmdForce := pushCmdForce v;
     pushCmdPublic := pushCmdPublic v |}.

Definition with_pushCmdDB (d : string) (v : Vars) : Vars :=
  {| pullCmdBranch := pullCmdBranch v; pullCmdCommit := pullCmdCommit v;
     pushCmdBranch := pushCmdBranch v; pushCmdCommit := pushCmdCommit v;
     pushCmdDB := d; pushCmdEmail := pushCmdEmail v;
     pushCmdLicence := pushCmdLicence v; pushCmdMsg := pushCmdMsg v;
     pushCmdName := pushCmdName v; pushCmdForce := pushCmdForce v;
     pushCmdPublic := pushCmdPublic v |}.

(** ** The monad of the commands: state, errors and emitted effects *)

Inductive Result (A : Type) :=
| Ok (a : A)
| Err (e : error).
Global Arguments Ok {A} a.
Global Arguments Err {A} e.

Definition Outcome (A : Type) : Type := Result A * State * list Event.

Definition M (A : Type) : Type := State → Outcome A.

(** The effects [evs] happened before the outcome [o]. *)
Definition prepend {A} (evs : list Event) (o : Outcome A) : Outcome A :=
  match o with
  | (r, s, evs') => (r, s, evs ++ evs')
  end.

Global Instance M_ret : MRet M := λ A a s, (Ok a, s, []).

Global Instance M_bind : MBind M := λ A B f m s,
  match m s with
  | (Ok a, s1, evs) => prepend evs (f a s1)
  | (Err e, s1, evs) => (Err e, s1, evs)
  end.

(** [return err] *)
Definition fail {A} (e : error) : M A := λ s, (Err e, s, []).

Definition emit (ev : Event) : M unit := λ s, (Ok tt, s, [ev]).

Definition modify (f : State → State) : M unit := λ s, (Ok tt, f s, []).

Definition get_vars : M Vars := λ s, (Ok (vars s), s, []).

(** [if c { m }] *)
Definition when (c : bool) (m : M unit) : M unit := if c then m else mret tt.

Definition result_of {A} (o : Outcome A) : Result A := o.1.1.
Definition state_of {A} (o : Outcome A) : State := o.1.2.
Definition events_of {A} (o : Outcome A) : list Event := o.2.

(** ** The commands *)

Section Commands.
Context (E : Env).

(** What [os.Stat] reports for an existing path. *)
Record FileInfo := {
  fi_Size : Z;
  fi_ModTime : Z;
  fi_IsDir : bool;
}.

Definition stat (s : State) (path : string) : option FileInfo :=
  match fs s !! path with
  | Some data =>
      Some {| fi_Size := Z.of_nat (String.length data);
              fi_ModTime := default 0 (mtimes s !! path);
              fi_IsDir := false |}
  | None =>
      if decide (path ∈ dirs s)
      then Some {| fi_Size := 0; fi_ModTime := default 0 (mtimes s !! path);
                   fi_IsDir := true |}
      else None
  end.

(** [os.Stat]: [None] stands for the error of a path that does not exist. *)
Definition os_Stat (path : string) : M (option FileInfo) :=
  λ s, (Ok (stat s path), s, []).

(** The path itself and the directories above it. *)
Fixpoint path_prefixes (pre s : string) : list string :=
  match s with
  | EmptyString => [pre]
  | String c r =>
      if Ascii.eqb c "/" then pre :: path_prefixes (pre +:+ "/") r
      else path_prefixes (pre +:+ String c EmptyString) r
  end.

(** [os.MkdirAll] *)
Definition os_MkdirAll (path : string) : M unit :=
  if mkdir_ok E path then
    emit (EvMkdirAll path);;
    modify (set_dirs (λ d, d ∪ list_to_set (path_prefixes EmptyString path)))
  else fail (PathError "mkdir" path).

(** [ioutil.WriteFile] *)
Definition ioutil_WriteFile (path data : string) : M unit :=
  emit (EvWriteFile path data (disk E path));;
  match disk E path with
  | WriteOk =>
      modify (set_fs (<[path := data]>));;
      modify (set_mtimes (<[path := time_Now E]>))
  | OpenFails => fail (PathError "open" path)
  | ShortWrite n =>
      modify (set_fs (<[path := String.substring 0 n data]>));;
      modify (set_mtimes (<[path := time_Now E]>));;
      fail (PathError "write" path)
  end.

(** [ioutil.ReadFile] *)
Definition ioutil_ReadFile (path : string) : M string :=
  λ s, match fs s !! path with
       | Some data => (Ok data, s, [])
       | None => (Err (PathError "read" path), s, [])
       end.

(** [os.Chtimes] *)
Definition os_Chtimes (path : string) (atime mtime : Z) : M unit :=
  if chtimes_ok E path then
    emit (EvChtimes path atime mtime);;
    modify (set_mtimes (<[path := mtime]>))
  else fail (PathError "chtimes" path).

Definition log_Print (msg : string) : M unit := emit (EvLog msg).

Fixpoint log_each (errs : list string) : M unit :=
  match errs with
  | [] => mret tt
  | e :: r => log_Print e;; log_each r
  end.

Definition fmt_Printf (format : string) (args : list Arg) : M unit :=
  emit (EvPrintf format args).

(** [numFormat.Printf], whose error the pull command returns. *)
Definition numFormat_Printf (format : string) (args : list Arg) : M unit :=
  if stdout_ok E then emit (EvPrintf format args) else fail PrintError.

(** [SendFile] with a path: the file is read when it is attached; a file
    that cannot be read leaves an error in the request. *)
Definition rq_SendFile (r : Request) (file filename fieldname : string) : M Request :=
  λ s, match fs s !! file with
       | Some data =>
           let name := if decide (filename = EmptyString) then filepath_Base file
                       else filename in
           (Ok {| Method := Method r; Url := Url r; ContentType := ContentType r;
                  QueryData := QueryData r;
                  FileData := FileData r ++
                    [{| sf_Filename := name; sf_Fieldname := fieldname;
                        sf_Content := data |}];
                  Errors := Errors r |}, s, [])
       | None =>
           (Ok {| Method := Method r; Url := Url r; ContentType := ContentType r;
                  QueryData := QueryData r; FileData := FileData r;
                  Errors := Errors r ++ ["read " +:+ file] |}, s, [])
       end.

(** [End]: a request that carries errors is not sent. *)
Definition rq_End (r : Request) : M NetResult :=
  match Errors r with
  | [] => emit (EvHTTP r (remote E r));; mret (remote E r)
  | errs => mret (NetErrs errs)
  end.

(** Modelled from the spec: the validation at save time of section 4.2,
    which is part of [saveMetadata]: the active branch, if set, is a
    branch, and every branch points to a known commit. *)
Definition valid_metaData (meta : metaData) : bool :=
  bool_decide (ActiveBranch meta = EmptyString
               ∨ is_Some (Branches meta !! ActiveBranch meta))
  && bool_decide (map_Forall (λ _ c, is_Some (Commits meta !! c)) (Branches meta)).

(** Modelled from the spec: [saveMetadata] is defined outside the two
    command files.  Section 4.2 of the specification: the record is
    validated and serialised; the new content is written to a temporary
    location, which is the write that [EvSaveMetadata] records with its
    outcome, and is then made visible in one step, which is the update of
    the stored record.  A write that cannot start or that stops part way
    fails the save before that step, and the stored record stays as it
    was. *)
Definition saveMetadata (db : string) (meta : metaData) : M unit :=
  if valid_metaData meta then
    let record := json_MarshalIndent E meta in
    emit (EvSaveMetadata db record (metadata_disk E db));;
    match metadata_disk E db with
    | WriteOk => modify (set_metadb (<[db := record]>))
    | OpenFails => fail (PathError "open" db)
    | ShortWrite n => fail (PathError "write" db)
    end
  else fail (InvariantViolation db).

(** Modelled from the spec: [updateMetadata] is defined outside the two
    command files.  Section 4.4 step 1 and section 4.5 step 5 of the
    specification: the metadata of the database is requested from the
    remote service, and stored with [saveMetadata] only when the caller
    asks for it. *)
Definition updateMetadata (db : string) (saveMeta : bool) : M metaData :=
  emit (EvMetadataRequest db);;
  match remote_metadata E db with
  | inl e => fail e
  | inr meta =>
      when saveMeta (saveMetadata db meta);;
      mret meta
  end.

(** The timestamp of the [modification-date] parameter as the pull command
    finds it in a [Content-Disposition] header: four fields separated by
    semicolons, the third one being the parameter. *)
Definition modification_date (disp : string) : option string :=
  if decide (disp ≠ EmptyString) then
    let s := strings_Split disp ";" in
    if decide (length s = 4%nat) then
      let a := strings_TrimLeft (nth 2 s EmptyString) " " in
      if strings_HasPrefix a "modification-date=" then
        let b := strings_Split a "=" in
        Some (strings_Trim (nth 1 b EmptyString) dquote)
      else None
    else None
  else None.

(** The path of a blob in the cache of database [db]. *)
Definition cache_path (db shaSum : string) : string :=
  filepath_Join [".dio"; db; "db"; shaSum].

(** [pullCmd.RunE] *)
Definition pullCmd (args : list string) : M unit :=
  when (bool_decide (length args = 0%nat))
    (fail (errors_New "No database file specified"));;
  when (bool_decide (1 < length args)%nat)
    (fail (errors_New "Only one database can be downloaded at a time (for now)"));;
  v ← get_vars;
  when (bool_decide (pullCmdBranch v ≠ EmptyString ∧ pullCmdCommit v ≠ EmptyString))
    (fail (errors_New
       "Either a branch name or commit ID can be given.  Not both at the same time!"));;
  let db := nth 0 args EmptyString in
  meta ← updateMetadata db false;
  when (bool_decide (pullCmdBranch v ≠ EmptyString))
    (when (bool_decide (Branches meta !! pullCmdBranch v = None))
       (fail (errors_New "The requested branch doesn't exist")));;
  when (bool_decide (pullCmdCommit v ≠ EmptyString))
    (when (bool_decide (Commits meta !! pullCmdCommit v = None))
       (fail (errors_New "The requested commit doesn't exist")));;
  let dbURL := cloud E +:+ "/" +:+ certUser E +:+ "/" +:+ db in
  let req := rq_Get dbURL in
  let req :=
    if decide (pullCmdBranch v ≠ EmptyString)
    then rq_Query req ("branch=" +:+ url_QueryEscape (pullCmdBranch v))
    else rq_Query req ("commit=" +:+ url_QueryEscape (pullCmdCommit v)) in
  r ← rq_End req;
  match r with
  | NetErrs errs =>
      log_Print "Errors when downloading database:";;
      log_each errs;;
      fail (errors_New "Error when downloading database")
  | NetResp resp body =>
      when (bool_decide (StatusCode resp ≠ http_StatusOK))
        (if decide (StatusCode resp = http_StatusNotFound) then
           if decide (pullCmdBranch v ≠ EmptyString) then
             fail (errors_New "That database & branch aren't known on DBHub.io")
           else if decide (pullCmdCommit v ≠ EmptyString) then
             fail (errors_New ("Requested database not found with commit "
                               +:+ pullCmdCommit v +:+ "."))
           else fail (errors_New "Requested database not found")
         else
           fail (errors_New ("Download failed with an error: HTTP status "
                             +:+ fmt_d (StatusCode resp) +:+ " - '"
                             +:+ Status resp +:+ "'" +:+ newline)));;
      st ← os_Stat (filepath_Join [".dio"; db; "db"]);
      when (bool_decide (st = None))
        (os_MkdirAll (filepath_Join [".dio"; db; "db"]));;
      let shaSum := hex_EncodeToString (sha256_Sum256 body) in
      ioutil_WriteFile (cache_path db shaSum) body;;
      ioutil_WriteFile db body;;
      match modification_date (Header_Get resp "Content-Disposition") with
      | Some c =>
          match time_Parse E c with
          | None => fail (time_ParseError c)
          | Some lastMod => os_Chtimes db (time_Now E) lastMod
          end
      | None => mret tt
      end;;
      let branch := Header_Get resp "Branch" in
      let meta := if decide (branch ≠ EmptyString)
                  then set_ActiveBranch branch meta else meta in
      saveMetadata db meta;;
      if decide (pullCmdBranch v ≠ EmptyString) then
        numFormat_Printf
          ("Database '%s' downloaded from %s.  Size: %d bytes" +:+ newline
           +:+ "Branch: '%s'" +:+ newline)
          [AStr db; AStr (cloud E); AInt (Z.of_nat (String.length body));
           AStr (pullCmdBranch v)]
      else
        let comID := Header_Get resp "Commit-Id" in
        if decide (comID ≠ EmptyString) then
          numFormat_Printf
            ("Database '%s' downloaded from %s.  Size: %d bytes" +:+ newline
             +:+ "Commit: %s" +:+ newline)
            [AStr db; AStr (cloud E); AInt (Z.of_nat (String.length body));
             AStr comID]
        else
          numFormat_Printf
            ("Database '%s' downloaded.  Size: %d bytes" +:+ newline)
            [AStr db; AInt (Z.of_nat (String.length body))]
  end.

(** The path of the saved branch and commit pointers of [file]. *)
Definition branch_file (file : string) : string := filepath_Join [".dio"; file; "branch"].
Definition commit_file (file : string) : string := filepath_Join [".dio"; file; "commit"].

(** The error of an upload that the remote answers with another status
    than 201. *)
Definition upload_failed (resp : Response) : error :=
  errors_New ("Upload failed with an error: HTTP status "
              +:+ fmt_d (StatusCode resp) +:+ " - '" +:+ Status resp +:+ "'"
              +:+ newline).

(** [pushCmd.RunE] *)
Definition pushCmd (args : list string) : M unit :=
  when (bool_decide (length args = 0%nat))
    (fail (errors_New "No database file specified"));;
  when (bool_decide (1 < length args)%nat)
    (fail (errors_New "Only one database can be uploaded at a time (for now)"));;
  let file := nth 0 args EmptyString in
  st ← os_Stat file;
  match st with
  | None => fail (PathError "stat" file)
  | Some fi =>
      v ← get_vars;
      let pushAuthor := default EmptyString (viper_author E) in
      let pushEmail := default EmptyString (viper_email E) in
      let pushAuthor := if decide (pushCmdName v ≠ EmptyString)
                        then pushCmdName v else pushAuthor in
      let pushEmail := if decide (pushCmdEmail v ≠ EmptyString)
                       then pushCmdEmail v else pushEmail in
      when (bool_decide (pushAuthor = EmptyString ∨ pushEmail = EmptyString))
        (fail (errors_New "Both author name and email are required!"));;
      when (bool_decide (pushCmdMsg v = EmptyString))
        (fail (errors_New "Commit message is required!"));;
      when (bool_decide (pushCmdDB v = EmptyString))
        (modify (set_vars (with_pushCmdDB (filepath_Base file))));;
      sb ← os_Stat (branch_file file);
      when (bool_decide (sb ≠ None))
        (b ← ioutil_ReadFile (branch_file file);
         modify (set_vars (with_pushCmdBranch b)));;
      sc ← os_Stat (commit_file file);
      when (bool_decide (sc ≠ None))
        (c ← ioutil_ReadFile (commit_file file);
         modify (set_vars (with_pushCmdCommit c)));;
      v ← get_vars;
      let dbURL := cloud E +:+ "/" +:+ certUser E +:+ "/" +:+ file in
      let req := rq_Type (rq_Post dbURL) "multipart" in
      let req := rq_Query req ("branch=" +:+ url_QueryEscape (pushCmdBranch v)) in
      let req := rq_Query req ("commitmsg=" +:+ url_QueryEscape (pushCmdMsg v)) in
      let req := rq_Query req ("lastmodified="
                               +:+ url_QueryEscape (time_Format E (fi_ModTime fi))) in
      let req := rq_Query req ("commit=" +:+ pushCmdCommit v) in
      let req := rq_Query req ("public=" +:+ fmt_bool (pushCmdPublic v)) in
      let req := rq_Query req ("force=" +:+ fmt_bool (pushCmdForce v)) in
      req ← rq_SendFile req file EmptyString "file1";
      let req := if decide (pushCmdLicence v ≠ EmptyString)
                 then rq_Query req ("licence=" +:+ url_QueryEscape (pushCmdLicence v))
                 else req in
      r ← rq_End req;
      match r with
      | NetErrs errs =>
          log_Print "Errors when uploading database to the cloud:";;
          log_each errs;;
          fail (errors_New "Error when uploading database to the cloud")
      | NetResp resp body =>
          when (bool_decide (StatusCode resp ≠ http_StatusCreated))
            (fail (upload_failed resp));;
          match json_Unmarshal E body with
          | None =>
              fmt_Printf ("Error parsing server response: '%v'" +:+ newline)
                [AStr body];;
              fail (json_UnmarshalError body)
          | Some parsedResponse =>
              _ ← updateMetadata file true;
              let comFile := commit_file file in
              ioutil_WriteFile comFile
                (default EmptyString (parsedResponse !! "commit_id"));;
              fmt_Printf ("Database uploaded to %s" +:+ newline +:+ newline)
                [AStr (cloud E)];;
              fmt_Printf ("  * Name: %s" +:+ newline) [AStr (pushCmdDB v)];;
              fmt_Printf ("    Branch: %s" +:+ newline) [AStr (pushCmdBranch v)];;
              when (bool_decide (pushCmdLicence v ≠ EmptyString))
                (fmt_Printf ("    Licence: %s" +:+ newline) [AStr (pushCmdLicence v)]);;
              fmt_Printf ("    Size: %d bytes" +:+ newline) [AInt (fi_Size fi)];;
              fmt_Printf ("    Commit message: %s" +:+ newline +:+ newline)
                [AStr (pushCmdMsg v)]
          end
      end
  end.

End Commands.

(** The names the specification gives to two of the errors. *)
Definition InvalidSelectorError : error :=
  errors_New "Either a branch name or commit ID can be given.  Not both at the same time!".

Definition RemoteError (resp : Response) : error := upload_failed resp.

(** ** Concrete environments and states

    The scenarios of section 8 of the specification: the database
    [sales.db] with a body of 17 bytes on branch [master]. *)
Module Scenario.

Definition body17 : string := "0123456789abcdefg".

Definition commit1 : CommitInfo :=
  {| ci_Parent := EmptyString; ci_Author := "Alice";
     ci_Email := "alice@example.org"; ci_Message := "first";
     ci_Timestamp := 1483228800; ci_Digest := "d1" |}.

Definition meta1 : metaData :=
  {| ActiveBranch := EmptyString;
     Branches := {[ "master" := "c1" ]};
     Commits := {[ "c1" := commit1 ]} |}.

Definition disposition (date : string) : string :=
  "attachment; filename=sales.db; modification-date=" +:+ dquote +:+ date
  +:+ dquote +:+ "; size=17".

Definition ok_response (date : string) : Response :=
  {| StatusCode := 200; Status := "200 OK";
     Header := {[ "Branch" := ["master"];
                  "Content-Disposition" := [disposition date] ]} |}.

Definition created : Response :=
  {| StatusCode := 201; Status := "201 Created"; Header := ∅ |}.

Definition conflict : Response :=
  {| StatusCode := 409; Status := "409 Conflict"; Header := ∅ |}.

Definition server_error : Response :=
  {| StatusCode := 500; Status := "500 Internal Server Error"; Header := ∅ |}.

(** A remote that answers downloads with [body17] and the given date,
    and uploads with the given response and body. *)
Definition remote_of (date : string) (up : Response) (upbody : string)
    (r : Request) : NetResult :=
  if decide (Method r = "GET") then NetResp (ok_response date) body17
  else NetResp up upbody.

(** The response bodies the scenarios use, parsed as [json.Unmarshal]
    into a map of strings does. *)
Definition commit_body (cid : string) : string :=
  "{" +:+ dquote +:+ "commit_id" +:+ dquote +:+ ":" +:+ dquote +:+ cid
  +:+ dquote +:+ "}".

Definition unmarshal (body : string) : option (gmap string string) :=
  if decide (body = commit_body "abc123")
  then Some {[ "commit_id" := "abc123" ]}
  else if decide (body = "{}") then Some ∅
  else None.

Definition parse_time (value : string) : option Z :=
  if decide (value = "2017-01-01T00:00:00Z") then Some 1483228800 else None.

Definition marshal (m : metaData) : string :=
  "{active:" +:+ ActiveBranch m +:+ "}".

Definition env (rem : Request → NetResult) (dsk mdsk : string → WriteOutcome) : Env :=
  {| cloud := "https://dbhub.io"; certUser := "alice";
     viper_author := Some "Alice"; viper_email := Some "alice@example.org";
     time_Now := 1500000000;
     time_Parse := parse_time;
     time_Format := λ _, "2017-01-01T00:00:00Z";
     json_Unmarshal := unmarshal;
     json_MarshalIndent := marshal;
     remote := rem;
     remote_metadata := λ _, inr meta1;
     disk := dsk;
     metadata_disk := mdsk;
     mkdir_ok := λ _, true;
     chtimes_ok := λ _, true;
     stdout_ok := true |}.

Definition flags (pullBranch pullCommit pushBranch pushCommit : string) : Vars :=
  {| pullCmdBranch := pullBranch; pullCmdCommit := pullCommit;
     pushCmdBranch := pushBranch; pushCmdCommit := pushCommit;
     pushCmdDB := EmptyString; pushCmdEmail := EmptyString;
     pushCmdLicence := EmptyString; pushCmdMsg := "second version";
     pushCmdName := EmptyString; pushCmdForce := false;
     pushCmdPublic := false |}.

Definition untracked_files : gmap string string := {[ "sales.db" := body17 ]}.

Definition state (v : Vars) (files : gmap string string) : State :=
  {| vars := v; fs := files; dirs := ∅; mtimes := ∅; metadb := ∅ |}.

Definition state_with_record (v : Vars) (record : string) : State :=
  {| vars := v; fs := untracked_files; dirs := ∅; mtimes := ∅;
     metadb := {[ "sales.db" := record ]} |}.

Definition all_ok : string → WriteOutcome := λ _, WriteOk.

Definition date1 : string := "2017-01-01T00:00:00Z".

(** Every write succeeds; uploads are answered with [up] and [upbody]. *)
Definition push_env (up : Response) (upbody : string) : Env :=
  env (remote_of date1 up upbody) all_ok all_ok.

(** Downloads carry the date [date]; the disk behaves as [dsk]. *)
Definition pull_env (date : string) (dsk : string → WriteOutcome) : Env :=
  env (remote_of date created (commit_body "abc123")) dsk all_ok.

(** A working copy without and with saved branch and commit pointers. *)
Definition untracked : gmap string string := untracked_files.

Definition tracked : gmap string string :=
  {[ "sales.db" := body17;
     ".dio/sales.db/branch" := "master";
     ".dio/sales.db/commit" := "c1" ]}.

End Scenario.

(** ** Running the commands symbolically *)

(** [runs m s Q]: the outcome of [m] from state [s] satisfies [Q]. *)
Definition runs {A} (m : M A) (s : State) (Q : Outcome A → Prop) : Prop := Q (m s).

(** What has to hold of the outcome of [m] for [Q] to hold of [m ≫= f]. *)
Definition bind_post {A B} (f : A → M B) (Q : Outcome B → Prop)
    (o : Outcome A) : Prop :=
  match o with
  | (Ok a, s1, evs) => runs (f a) s1 (λ o', Q (prepend evs o'))
  | (Err e, s1, evs) => Q (Err e, s1, evs)
  end.

Lemma runs_bind {A B} (m : M A) (f : A → M B) s Q :
  runs m s (bind_post f Q) → runs (m ≫= f) s Q.
Proof.
  unfold runs, bind_post, mbind, M_bind.
  destruct (m s) as [[[a|e] s1] evs]; auto.
Qed.

Lemma log_each_run errs s :
  log_each errs s = (Ok tt, s, EvLog <$> errs).
Proof.
  revert s. induction errs as [|e r IH]; intros s; [reflexivity|].
  simpl. unfold mbind, M_bind, log_Print, emit. rewrite IH. reflexivity.
Qed.

Lemma runs_log_each errs s (Q : Outcome unit → Prop) :
  Q (Ok tt, s, EvLog <$> errs) → runs (log_each errs) s Q.
Proof. unfold runs. by rewrite log_each_run. Qed.

Lemma runs_ReadFile path s (Q : Outcome string → Prop) o :
  fs s !! path = o →
  Q match o with
    | Some data => (Ok data, s, [])
    | None => (Err (PathError "read" path), s, [])
    end →
  runs (ioutil_ReadFile path) s Q.
Proof. intros <-. unfold runs, ioutil_ReadFile. by destruct (fs s !! path). Qed.

Lemma runs_SendFile r file filename fieldname s (Q : Outcome Request → Prop) o :
  fs s !! file = o →
  Q match o with
    | Some data =>
        (Ok {| Method := Method r; Url := Url r; ContentType := ContentType r;
               QueryData := QueryData r;
               FileData := FileData r ++
                 [{| sf_Filename := if decide (filename = EmptyString)
                                    then filepath_Base file else filename;
                     sf_Fieldname := fieldname; sf_Content := data |}];
               Errors := Errors r |}, s, [])
    | None =>
        (Ok {| Method := Method r; Url := Url r; ContentType := ContentType r;
               QueryData := QueryData r; FileData := FileData r;
               Errors := Errors r ++ ["read " +:+ file] |}, s, [])
    end →
  runs (rq_SendFile r file filename fieldname) s Q.
Proof. intros <-. unfold runs, rq_SendFile. by destruct (fs s !! file). Qed.

Ltac run_simpl :=
  lazy beta iota zeta delta [bind_post prepend];
  cbn [app vars fs dirs mtimes metadb
       set_vars set_fs set_dirs set_mtimes set_metadb
       pullCmdBranch pullCmdCommit pushCmdBranch pushCmdCommit pushCmdDB
       pushCmdEmail pushCmdLicence pushCmdMsg pushCmdName pushCmdForce
       pushCmdPublic with_pushCmdBranch with_pushCmdCommit with_pushCmdDB
       Method Url ContentType QueryData FileData Errors
       rq_Get rq_Post rq_Type rq_Query].

(** Cheap propositional reasoning from the facts collected so far. *)
Ltac from_context :=
  solve
    [ assumption
    | contradiction
    | split; assumption
    | intros [? ?]; contradiction
    | intros ?;
      match goal with
      | Hn : ¬ _ |- _ => apply Hn; first [assumption | split; assumption]
      end
    | exfalso;
      match goal with
      | Hn : ¬ _ |- _ => apply Hn; first [assumption | split; assumption]
      end ].

(** Case analysis on [x], reusing what the context knows about it. *)
Ltac run_case x :=
  lazymatch x with
  | bool_decide ?P =>
      first
        [ rewrite (bool_decide_eq_true_2 P) by from_context
        | rewrite (bool_decide_eq_false_2 P) by from_context
        | destruct (bool_decide_reflect P) ]
  | decide ?P => destruct (decide P); try from_context
  | _ =>
      first
        [ match goal with Hx : x = _ |- _ => rewrite Hx end
        | destruct x eqn:? ]
  end.

Ltac state_simpl t :=
  eval cbn [vars fs dirs mtimes metadb set_vars set_fs set_dirs set_mtimes
            set_metadb] in t.

(** One step of the run in the goal; fails when the run has ended. *)
Ltac run_step :=
  lazymatch goal with
  | |- runs (mbind _ _) _ _ => apply runs_bind
  | |- runs (when _ _) _ _ => unfold when at 1
  | |- runs (if ?c then _ else _) _ _ => run_case c
  | |- runs (match ?x with _ => _ end) _ _ => run_case x
  | |- runs (mret ?a) ?s ?Q => change (Q (Ok a, s, [])); run_simpl
  | |- runs (fail ?e) ?s ?Q => change (Q (Err e, s, [])); run_simpl
  | |- runs (emit ?ev) ?s ?Q => change (Q (Ok tt, s, [ev])); run_simpl
  | |- runs (modify ?f) ?s ?Q => change (Q (Ok tt, f s, [])); run_simpl
  | |- runs get_vars ?s ?Q => change (Q (Ok (vars s), s, [])); run_simpl
  | |- runs (os_Stat ?p) ?s ?Q => change (Q (Ok (stat s p), s, [])); run_simpl
  | |- runs (log_Print ?msg) ?s ?Q => change (Q (Ok tt, s, [EvLog msg])); run_simpl
  | |- runs (fmt_Printf ?f ?a) ?s ?Q =>
      change (Q (Ok tt, s, [EvPrintf f a])); run_simpl
  | |- runs (log_each _) _ _ => apply runs_log_each; run_simpl
  | |- runs (ioutil_ReadFile ?p) ?s ?Q =>
      let x := state_simpl (fs s !! p) in
      apply (runs_ReadFile p s Q x eq_refl); run_case x; run_simpl
  | |- runs (rq_SendFile ?r ?p ?n ?f) ?s ?Q =>
      let x := state_simpl (fs s !! p) in
      apply (runs_SendFile r p n f s Q x eq_refl); run_case x; run_simpl
  | |- runs (ioutil_WriteFile _ _ _) _ _ => unfold ioutil_WriteFile at 1
  | |- runs (os_MkdirAll _ _) _ _ => unfold os_MkdirAll at 1
  | |- runs (os_Chtimes _ _ _ _) _ _ => unfold os_Chtimes at 1
  | |- runs (numFormat_Printf _ _ _) _ _ => unfold numFormat_Printf at 1
  | |- runs (rq_End _ _) _ _ =>
      unfold rq_End at 1;
      try lazymatch goal with
          | |- runs (match Errors (if ?c then _ else _) with _ => _ end) _ _ =>
              run_case c
          end;
      run_simpl
  | |- runs (saveMetadata _ _ _) _ _ => unfold saveMetadata at 1
  | |- runs (updateMetadata _ _ _) _ _ => unfold updateMetadata at 1
  end.

Ltac run_all := repeat run_step.

(** Membership of an event in the events of a finished run. *)
Ltac in_events H :=
  repeat first
    [ apply elem_of_nil in H; destruct H
    | apply elem_of_cons in H as [H|H]; [try discriminate H|]
    | apply elem_of_app in H as [H|H]
    | apply list_elem_of_fmap in H as (? & H & _); discriminate H ].

Lemma stat_None_fs s p : stat s p = None → fs s !! p = None.
Proof. unfold stat. by destruct (fs s !! p). Qed.

(** ** The library functions on known inputs *)

Example sha256_abc :
  hex_EncodeToString (sha256_Sum256 "abc")
  = "ba7816bf8f01cfea414140de5dae2223b00361a396177a9cb410ff61f20015ad".
Proof. vm_compute. reflexivity. Qed.

Example sha256_empty :
  hex_EncodeToString (sha256_Sum256 EmptyString)
  = "e3b0c44298fc1c149afbf4c8996fb92427ae41e4649b934ca495991b7852b855".
Proof. vm_compute. reflexivity. Qed.

Example sha256_two_blocks :
  hex_EncodeToString
    (sha256_Sum256 "abcdbcdecdefdefgefghfghighijhijkijkljklmklmnlmnomnopnopq")
  = "248d6a61d20638b8e5c026930c3e6039a33ce45964ff2167f6ecedd419db06c1".
Proof. vm_compute. reflexivity. Qed.

Example QueryEscape_sample : url_QueryEscape "a b/c~d:e" = "a+b%2Fc~d%3Ae".
Proof. reflexivity. Qed.

Example Split_sample :
  strings_Split "attachment; filename=x; modification-date=q; size=3" ";"
  = ["attachment"; " filename=x"; " modification-date=q"; " size=3"].
Proof. reflexivity. Qed.

Example Split_empty : strings_Split EmptyString ";" = [EmptyString].
Proof. reflexivity. Qed.

Example Join_sample : filepath_Join [".dio"; "sales.db"; "db"] = ".dio/sales.db/db".
Proof. reflexivity. Qed.

Example Join_skips_empty : filepath_Join [".dio"; EmptyString; "db"] = ".dio/db".
Proof. reflexivity. Qed.

Example Base_sample : filepath_Base "dir/sub/sales.db" = "sales.db".
Proof. reflexivity. Qed.

Example Base_trailing_slash : filepath_Base "dir/sub/" = "sub".
Proof. reflexivity. Qed.

Example modification_date_sample :
  modification_date (Scenario.disposition "2017-01-01T00:00:00Z")
  = Some "2017-01-01T00:00:00Z".
Proof. reflexivity. Qed.

Example modification_date_three_fields :
  modification_date "attachment; filename=x; modification-date=q" = None.
Proof. reflexivity. Qed.

(** The first scenario of the specification: the events of a pull of
    [sales.db] on branch [master], and what it leaves behind. *)
Example pull_scenario :
  let o := pullCmd (Scenario.pull_env Scenario.date1 Scenario.all_ok) ["sales.db"]
             (Scenario.state (Scenario.flags "master" EmptyString "master" EmptyString) ∅) in
  result_of o = Ok tt
  ∧ fs (state_of o) !! "sales.db" = Some Scenario.body17
  ∧ fs (state_of o)
      !! ".dio/sales.db/db/8378b19d693ee89e2ca594b6ec0abfaadc4fe1831eaca2f748f0b71ede38892e"
    = Some Scenario.body17
  ∧ metadb (state_of o) !! "sales.db" = Some "{active:master}"
  ∧ mtimes (state_of o) !! "sales.db" = Some 1483228800
  ∧ length (events_of o) = 8%nat.
Proof. vm_compute. repeat split; reflexivity. Qed.

(** The second scenario: the database is unknown to the remote. *)
Example pull_not_found :
  let notfound := {| StatusCode := 404; Status := "404 Not Found"; Header := ∅ |} in
  let E := Scenario.env (λ _, NetResp notfound EmptyString)
             Scenario.all_ok Scenario.all_ok in
  let s := Scenario.state (Scenario.flags EmptyString EmptyString "master" EmptyString) ∅ in
  let o := pullCmd E ["ghost.db"] s in
  result_of o = Err (errors_New "Requested database not found")
  ∧ state_of o = s.
Proof. vm_compute. repeat split; reflexivity. Qed.

(** The third scenario: a push without commit message. *)
Example push_without_message :
  let v := Scenario.flags EmptyString EmptyString "master" EmptyString in
  let v := {| pullCmdBranch := pullCmdBranch v; pullCmdCommit := pullCmdCommit v;
              pushCmdBranch := pushCmdBranch v; pushCmdCommit := pushCmdCommit v;
              pushCmdDB := pushCmdDB v; pushCmdEmail := pushCmdEmail v;
              pushCmdLicence := pushCmdLicence v; pushCmdMsg := EmptyString;
              pushCmdName := pushCmdName v; pushCmdForce := pushCmdForce v;
              pushCmdPublic := pushCmdPublic v |} in
  let o := pushCmd (Scenario.push_env Scenario.created (Scenario.commit_body "abc123"))
             ["sales.db"] (Scenario.state v Scenario.untracked) in
  result_of o = Err (errors_New "Commit message is required!")
  ∧ events_of o = [].
Proof. vm_compute. repeat split; reflexivity. Qed.

(** ** Paths and digests *)

Lemma string_app_nil_l b : EmptyString +:+ b = b.
Proof. reflexivity. Qed.

Lemma string_app_cons x a b : String x a +:+ b = String x (a +:+ b).
Proof. reflexivity. Qed.

Lemma string_length_app a b :
  String.length (a +:+ b) = (String.length a + String.length b)%nat.
Proof.
  induction a as [|c a IH]; [reflexivity|].
  rewrite string_app_cons. simpl. by rewrite IH.
Qed.

Lemma string_app_assoc a b c : (a +:+ b) +:+ c = a +:+ (b +:+ c).
Proof.
  induction a as [|x a IH]; [reflexivity|].
  by rewrite !string_app_cons, IH.
Qed.

Lemma string_app_empty_r a : a +:+ EmptyString = a.
Proof.
  induction a as [|x a IH]; [reflexivity|].
  by rewrite string_app_cons, IH.
Qed.

Lemma string_rev_app a b : string_rev (a +:+ b) = string_rev b +:+ string_rev a.
Proof.
  induction a as [|x a IH].
  - simpl. by rewrite string_app_nil_l, string_app_empty_r.
  - rewrite string_app_cons. simpl. by rewrite IH, string_app_assoc.
Qed.

Lemma string_rev_involutive a : string_rev (string_rev a) = a.
Proof.
  induction a as [|x a IH]; simpl; [reflexivity|].
  by rewrite string_rev_app, IH.
Qed.

Lemma has_slash_app a b : has_slash (a +:+ b) = has_slash a || has_slash b.
Proof.
  induction a as [|x a IH]; [reflexivity|].
  rewrite string_app_cons. simpl. by rewrite IH, orb_assoc.
Qed.

Lemma has_slash_rev a : has_slash (string_rev a) = has_slash a.
Proof.
  induction a as [|x a IH]; simpl; [reflexivity|].
  rewrite has_slash_app, IH. simpl. rewrite orb_false_r. apply orb_comm.
Qed.

(** A path whose last element is [name] has [name] as its base. *)
Lemma after_last_slash_none acc s :
  has_slash s = false → after_last_slash acc s = acc.
Proof.
  revert acc. induction s as [|c s IH]; intros acc H; simpl in *; [reflexivity|].
  apply orb_false_iff in H as [-> H]. by apply IH.
Qed.

Lemma after_last_slash_app acc pre name :
  has_slash name = false →
  after_last_slash acc (pre +:+ "/" +:+ name) = name.
Proof.
  intros H. revert acc. induction pre as [|c pre IH]; intros acc.
  - rewrite string_app_nil_l, string_app_cons, string_app_nil_l. simpl.
    by apply after_last_slash_none.
  - rewrite string_app_cons. simpl. destruct (Ascii.eqb c "/"); apply IH.
Qed.

Lemma TrimLeft_no_slash s :
  s ≠ EmptyString → has_slash s = false → ∀ t, strings_TrimLeft (s +:+ t) "/" = s +:+ t.
Proof.
  destruct s as [|c s]; [done|]. simpl. intros _ H t.
  apply orb_false_iff in H as [H _].
  rewrite string_app_cons. simpl. unfold mem_ascii. simpl. by rewrite H.
Qed.

Lemma TrimRight_no_slash pre name :
  name ≠ EmptyString → has_slash name = false →
  strings_TrimRight (pre +:+ name) "/" = pre +:+ name.
Proof.
  intros Hne Hs. unfold strings_TrimRight.
  rewrite string_rev_app, TrimLeft_no_slash.
  - by rewrite <- string_rev_app, string_rev_involutive.
  - intros Hr. apply Hne. by rewrite <- (string_rev_involutive name), Hr.
  - by rewrite has_slash_rev.
Qed.

Lemma filepath_Base_slash pre name :
  name ≠ EmptyString → has_slash name = false →
  filepath_Base (pre +:+ "/" +:+ name) = name.
Proof.
  intros Hne Hs. unfold filepath_Base.
  destruct (decide (pre +:+ "/" +:+ name = EmptyString)) as [He|_].
  { destruct pre; discriminate He. }
  rewrite <- string_app_assoc, TrimRight_no_slash by done.
  rewrite string_app_assoc, after_last_slash_app by done.
  by destruct (decide (name = EmptyString)).
Qed.

(** The cache path: the name of the cache file is its last element. *)
Lemma cache_path_unfold db name :
  name ≠ EmptyString →
  cache_path db name
  = (if decide (db = EmptyString) then ".dio/db" else ".dio/" +:+ db +:+ "/db")
    +:+ "/" +:+ name.
Proof.
  intros Hne. unfold cache_path, filepath_Join.
  destruct name as [|c name]; [done|].
  destruct db as [|d db]; cbv [filter list_filter decide decide_rel]; simpl.
  - reflexivity.
  - by rewrite !string_app_assoc.
Qed.

Lemma filepath_Base_cache_path db name :
  name ≠ EmptyString → has_slash name = false →
  filepath_Base (cache_path db name) = name.
Proof.
  intros Hne Hs. rewrite cache_path_unfold by done.
  by apply filepath_Base_slash.
Qed.

Lemma cache_path_length db name :
  (String.length db < String.length (cache_path db name))%nat.
Proof.
  unfold cache_path, filepath_Join.
  destruct name as [|c name]; destruct db as [|d db]; simpl;
    rewrite ?string_length_app; simpl; rewrite ?string_length_app; simpl; lia.
Qed.

Lemma cache_path_ne db name : cache_path db name ≠ db.
Proof.
  intros H. pose proof (cache_path_length db name) as Hl. rewrite H in Hl. lia.
Qed.

(** The digest: 32 bytes, written as 64 hexadecimal digits. *)
Lemma round_length h kw : length (SHA256.round h kw) = length h.
Proof.
  unfold SHA256.round.
  do 9 (destruct h as [|? h]; [reflexivity|]); reflexivity.
Qed.

Lemma fold_round_length l h : length (fold_left SHA256.round l h) = length h.
Proof.
  revert h. induction l as [|kw l IH]; intros h; simpl; [reflexivity|].
  by rewrite IH, round_length.
Qed.

Lemma block_length h chunk : length (SHA256.block h chunk) = length h.
Proof.
  unfold SHA256.block.
  rewrite length_map, length_combine, fold_round_length. lia.
Qed.

Lemma blocks_length fuel h bs : length (SHA256.blocks fuel h bs) = length h.
Proof.
  revert h bs. induction fuel as [|fuel IH]; intros h bs; simpl; [reflexivity|].
  destruct bs; [reflexivity|]. by rewrite IH, block_length.
Qed.

Lemma flat_map_be_bytes_length l :
  length (flat_map (SHA256.be_bytes 4) l) = (4 * length l)%nat.
Proof.
  induction l as [|x l IH]; [reflexivity|].
  change (flat_map (SHA256.be_bytes 4) (x :: l))
    with (SHA256.be_bytes 4 x ++ flat_map (SHA256.be_bytes 4) l).
  rewrite length_app, IH. unfold SHA256.be_bytes. rewrite length_map. simpl. lia.
Qed.

Lemma string_of_list_ascii_length l :
  String.length (string_of_list_ascii l) = length l.
Proof. induction l as [|c l IH]; simpl; [reflexivity|]. by rewrite IH. Qed.

Lemma Sum256_length data : String.length (sha256_Sum256 data) = 32%nat.
Proof.
  unfold sha256_Sum256, SHA256.Sum256, SHA256.string_of_bytes.
  rewrite string_of_list_ascii_length, length_map, flat_map_be_bytes_length,
    blocks_length.
  vm_compute. reflexivity.
Qed.

Lemma hex_length s :
  String.length (hex_EncodeToString s) = (2 * String.length s)%nat.
Proof. induction s as [|c s IH]; simpl; [reflexivity|]. rewrite IH. lia. Qed.

Lemma hexdigit_not_slash n : Ascii.eqb (hexdigit n) "/" = false.
Proof.
  unfold hexdigit. generalize (N.to_nat n) as k. intros k.
  do 17 (destruct k as [|k]; [reflexivity|]); reflexivity.
Qed.

Lemma hex_no_slash s : has_slash (hex_EncodeToString s) = false.
Proof.
  induction s as [|c s IH]; simpl; [reflexivity|].
  by rewrite !hexdigit_not_slash, IH.
Qed.

Lemma digest_name_nonempty body :
  hex_EncodeToString (sha256_Sum256 body) ≠ EmptyString.
Proof.
  intros H. pose proof (hex_length (sha256_Sum256 body)) as Hl.
  rewrite H, Sum256_length in Hl. discriminate Hl.
Qed.

(** ** C2: branch and commit given together *)

(** C2, as the code has it: a pull invoked with both the branch flag and
    the commit flag non-empty fails before anything is requested from the
    remote service and before anything is written (no event at all, the
    state unchanged); with exactly one database argument the error is the
    selector error. *)
Theorem pull_rejects_both_selectors E args s :
  pullCmdBranch (vars s) ≠ EmptyString →
  pullCmdCommit (vars s) ≠ EmptyString →
  let o := pullCmd E args s in
  (∃ e, result_of o = Err e
        ∧ (length args = 1%nat → e = InvalidSelectorError))
  ∧ events_of o = []
  ∧ network_calls (events_of o) = []
  ∧ state_of o = s.
Proof.
  intros Hb Hc.
  change (runs (pullCmd E args) s (λ o,
    (∃ e, result_of o = Err e ∧ (length args = 1%nat → e = InvalidSelectorError))
    ∧ events_of o = [] ∧ network_calls (events_of o) = [] ∧ state_of o = s)).
  unfold pullCmd. run_all.
  - split; [|done]. eexists; split; [reflexivity|]. intros Hl. congruence.
  - split; [|done]. eexists; split; [reflexivity|]. intros Hl. lia.
  - split; [|done]. eexists; split; reflexivity.
Qed.

Lemma pull_rejects_both_selectors_witness :
  let o := pullCmd (Scenario.pull_env Scenario.date1 Scenario.all_ok) ["sales.db"]
             (Scenario.state (Scenario.flags "master" "c1" "master" EmptyString) ∅) in
  (∃ e, result_of o = Err e
        ∧ (length ["sales.db"] = 1%nat → e = InvalidSelectorError))
  ∧ events_of o = []
  ∧ network_calls (events_of o) = []
  ∧ state_of o = Scenario.state (Scenario.flags "master" "c1" "master" EmptyString) ∅.
Proof.
  apply (pull_rejects_both_selectors
           (Scenario.pull_env Scenario.date1 Scenario.all_ok) ["sales.db"]
           (Scenario.state (Scenario.flags "master" "c1" "master" EmptyString) ∅));
    simpl; discriminate.
Defined.

(** C2 fails for push: with the branch flag and the commit flag both
    non-empty the upload is sent and succeeds, after two calls of the
    remote service. *)
Lemma push_accepts_both_selectors :
  let s := Scenario.state (Scenario.flags EmptyString EmptyString "master" "c1")
             Scenario.untracked in
  let o := pushCmd (Scenario.push_env Scenario.created (Scenario.commit_body "abc123"))
             ["sales.db"] s in
  pushCmdBranch (vars s) = "master"
  ∧ pushCmdCommit (vars s) = "c1"
  ∧ result_of o = Ok tt
  ∧ length (network_calls (events_of o)) = 2%nat
  ∧ QueryData <$> sent_requests (events_of o)
    = [["branch=master"; "commitmsg=second+version";
        "lastmodified=2017-01-01T00%3A00%3A00Z"; "commit=c1";
        "public=false"; "force=false"]].
Proof. vm_compute. repeat split; reflexivity. Qed.

(** ** C3: saving the metadata record *)


(** A save whose write stops after eight bytes fails, and the stored
    record is still the complete record from before the save. *)
Example save_interrupted_keeps_old_record :
  let E := Scenario.env (Scenario.remote_of Scenario.date1 Scenario.created EmptyString)
             Scenario.all_ok (λ _, ShortWrite 8) in
  let v := Scenario.flags "master" EmptyString "master" EmptyString in
  let s := Scenario.state_with_record v (json_MarshalIndent E Scenario.meta1) in
  let meta := set_ActiveBranch "master" Scenario.meta1 in
  let o := saveMetadata E "sales.db" meta s in
  metadb s !! "sales.db" = Some "{active:}"
  ∧ json_MarshalIndent E meta = "{active:master}"
  ∧ result_of o = Err (PathError "write" "sales.db")
  ∧ metadb (state_of o) !! "sales.db" = Some "{active:}".
Proof. vm_compute. repeat split; reflexivity. Qed.

(** ** Push *)

(** What the context says of a saved pointer file that [os.Stat] did not
    find: it is not a regular file. *)
Ltac absent_pointer_files s :=
  repeat match goal with
  | Hn : ¬ (stat ?s' ?p ≠ None) |- _ =>
      let Hst := fresh "Hst" in
      assert (stat s' p = None) as Hst
        by (destruct (stat s' p) eqn:?;
            [exfalso; apply Hn; congruence | reflexivity]);
      apply stat_None_fs in Hst; cbn [fs set_vars] in Hst;
      rewrite ?Hst; clear Hn
  end.

(** C5, as the code has it: whenever an upload is sent, its branch is the
    content of the saved branch pointer file if that file exists, and the
    branch flag only otherwise; likewise the base commit is the content of
    the saved commit pointer file if it exists, and the commit flag only
    otherwise. *)
Theorem push_base_reference E args s r res :
  EvHTTP r res ∈ events_of (pushCmd E args s) →
  let file := nth 0 args EmptyString in
  nth 0 (QueryData r) EmptyString
    = "branch=" +:+ url_QueryEscape
        (default (pushCmdBranch (vars s)) (fs s !! branch_file file))
  ∧ nth 3 (QueryData r) EmptyString
    = "commit=" +:+ default (pushCmdCommit (vars s)) (fs s !! commit_file file).
Proof.
  change (runs (pushCmd E args) s (λ o, EvHTTP r res ∈ events_of o →
    let file := nth 0 args EmptyString in
    nth 0 (QueryData r) EmptyString
      = "branch=" +:+ url_QueryEscape
          (default (pushCmdBranch (vars s)) (fs s !! branch_file file))
    ∧ nth 3 (QueryData r) EmptyString
      = "commit=" +:+ default (pushCmdCommit (vars s)) (fs s !! commit_file file))).
  unfold pushCmd. run_all.
  all: unfold events_of; cbn [snd]; intros Hin; in_events Hin.
  all: injection Hin as -> _.
  all: absent_pointer_files s.
  all: split; reflexivity.
Qed.

Lemma push_base_reference_witness :
  let s := Scenario.state (Scenario.flags EmptyString EmptyString "dev" "c0")
             Scenario.tracked in
  let o := pushCmd (Scenario.push_env Scenario.created (Scenario.commit_body "abc123"))
             ["sales.db"] s in
  ∃ r res,
    EvHTTP r res ∈ events_of o
    ∧ nth 0 (QueryData r) EmptyString = "branch=master"
    ∧ nth 3 (QueryData r) EmptyString = "commit=c1".
Proof.
  intros s o.
  assert (∃ r res rest, events_of o = EvHTTP r res :: rest) as (r & res & rest & Hev)
    by (vm_compute; eauto).
  assert (EvHTTP r res ∈ events_of o) as Hin
    by (rewrite Hev; apply list_elem_of_here).
  exists r, res. split; [exact Hin|].
  pose proof (push_base_reference
                (Scenario.push_env Scenario.created (Scenario.commit_body "abc123"))
                ["sales.db"] s r res Hin) as H.
  vm_compute in H. exact H.
Defined.

(** C5 fails: with the explicit flags [--branch dev --commit c0] and saved
    pointers [master] and [c1], the upload is sent for branch [master] on
    top of commit [c1]: the saved pointers replace the explicit flags. *)
Lemma push_saved_pointers_override_flags :
  let s := Scenario.state (Scenario.flags EmptyString EmptyString "dev" "c0")
             Scenario.tracked in
  let o := pushCmd (Scenario.push_env Scenario.created (Scenario.commit_body "abc123"))
             ["sales.db"] s in
  pushCmdBranch (vars s) = "dev"
  ∧ pushCmdCommit (vars s) = "c0"
  ∧ fs s !! branch_file "sales.db" = Some "master"
  ∧ fs s !! commit_file "sales.db" = Some "c1"
  ∧ QueryData <$> sent_requests (events_of o)
    = [["branch=master"; "commitmsg=second+version";
        "lastmodified=2017-01-01T00%3A00%3A00Z"; "commit=c1";
        "public=false"; "force=false"]].
Proof. vm_compute. repeat split; reflexivity. Qed.

(** C6, as the code has it: every answer to the upload with another status
    than 201 makes the push fail with the one generic error built from the
    status code and text, whatever the status and whatever the force flag. *)
Theorem push_rejected_is_RemoteError E args s r resp body :
  let o := pushCmd E args s in
  EvHTTP r (NetResp resp body) ∈ events_of o →
  StatusCode resp ≠ http_StatusCreated →
  result_of o = Err (RemoteError resp).
Proof.
  change (runs (pushCmd E args) s (λ o,
    EvHTTP r (NetResp resp body) ∈ events_of o →
    StatusCode resp ≠ http_StatusCreated →
    result_of o = Err (RemoteError resp))).
  unfold pushCmd. run_all.
  all: unfold events_of, result_of; cbn [fst snd]; intros Hin Hst; in_events Hin.
  all: injection Hin as -> -> ->.
  all: first [reflexivity | contradiction].
Qed.

Lemma push_rejected_is_RemoteError_witness :
  result_of (pushCmd (Scenario.push_env Scenario.server_error EmptyString)
               ["sales.db"]
               (Scenario.state (Scenario.flags EmptyString EmptyString "master" EmptyString)
                  Scenario.untracked))
  = Err (RemoteError Scenario.server_error).
Proof.
  eapply (push_rejected_is_RemoteError
            (Scenario.push_env Scenario.server_error EmptyString) ["sales.db"]
            (Scenario.state (Scenario.flags EmptyString EmptyString "master" EmptyString)
               Scenario.untracked) _ Scenario.server_error EmptyString).
  - vm_compute. apply list_elem_of_here.
  - vm_compute. discriminate.
Defined.

(** C6 fails: an upload rejected with [409 Conflict], the force flag not
    set, fails with the same generic error as one answered with
    [500 Internal Server Error]; there is no separate conflict error. *)
Lemma push_conflict_is_generic_error :
  let s := Scenario.state (Scenario.flags EmptyString EmptyString "master" "c0")
             Scenario.untracked in
  pushCmdForce (vars s) = false
  ∧ result_of (pushCmd (Scenario.push_env Scenario.conflict EmptyString) ["sales.db"] s)
    = Err (RemoteError Scenario.conflict)
  ∧ result_of (pushCmd (Scenario.push_env Scenario.server_error EmptyString) ["sales.db"] s)
    = Err (RemoteError Scenario.server_error)
  ∧ RemoteError Scenario.conflict
    = errors_New ("Upload failed with an error: HTTP status 409 - '409 Conflict'"
                  +:+ newline).
Proof. vm_compute. repeat split; reflexivity. Qed.

(** C9: after a push that succeeds, the upload was answered with status
    201 and, when the JSON body of the answer holds a [commit_id], the
    commit pointer file of the database holds exactly that commit id. *)
Theorem push_stores_commit_id E args s r resp body m cid :
  let o := pushCmd E args s in
  result_of o = Ok tt →
  EvHTTP r (NetResp resp body) ∈ events_of o →
  json_Unmarshal E body = Some m →
  m !! "commit_id" = Some cid →
  StatusCode resp = http_StatusCreated
  ∧ fs (state_of o) !! commit_file (nth 0 args EmptyString) = Some cid.
Proof.
  change (runs (pushCmd E args) s (λ o,
    result_of o = Ok tt →
    EvHTTP r (NetResp resp body) ∈ events_of o →
    json_Unmarshal E body = Some m →
    m !! "commit_id" = Some cid →
    StatusCode resp = http_StatusCreated
    ∧ fs (state_of o) !! commit_file (nth 0 args EmptyString) = Some cid)).
  unfold pushCmd. run_all.
  all: unfold events_of, result_of, state_of; cbn [fst snd fs];
    intros Hok; try discriminate Hok; intros Hin Hm Hcid; in_events Hin.
  all: injection Hin as -> -> ->.
  all: split; [by apply dec_stable|].
  all: match goal with
       | H : json_Unmarshal _ _ = Some ?m', H' : json_Unmarshal _ _ = Some ?m2 |- _ =>
           assert (m' = m2) as -> by congruence
       end.
  all: rewrite Hcid; apply lookup_insert_eq.
Qed.

Lemma push_stores_commit_id_witness :
  let o := pushCmd (Scenario.push_env Scenario.created (Scenario.commit_body "abc123"))
             ["sales.db"]
             (Scenario.state (Scenario.flags EmptyString EmptyString "master" EmptyString)
                Scenario.untracked) in
  StatusCode Scenario.created = http_StatusCreated
  ∧ fs (state_of o) !! commit_file "sales.db" = Some "abc123".
Proof.
  eapply (push_stores_commit_id
            (Scenario.push_env Scenario.created (Scenario.commit_body "abc123"))
            ["sales.db"]
            (Scenario.state (Scenario.flags EmptyString EmptyString "master" EmptyString)
               Scenario.untracked)
            _ Scenario.created (Scenario.commit_body "abc123")
            {[ "commit_id" := "abc123" ]} "abc123").
  - vm_compute. reflexivity.
  - vm_compute. apply list_elem_of_here.
  - vm_compute. reflexivity.
  - vm_compute. reflexivity.
Defined.



(** ** Pull *)

Lemma lookup_content (m : gmap string string) db p body :
  <[db := body]> (<[p := body]> m) !! p = Some body.
Proof.
  destruct (decide (db = p)) as [->|Hne].
  - apply lookup_insert_eq.
  - rewrite lookup_insert_ne by done. apply lookup_insert_eq.
Qed.

(** Writing to a file the bytes it holds leaves the files as they are. *)
Lemma WriteFile_same_bytes E path data s :
  disk E path = WriteOk →
  fs s !! path = Some data →
  fs (state_of (ioutil_WriteFile E path data s)) = fs s.
Proof.
  intros Hd Hf. unfold ioutil_WriteFile. rewrite Hd.
  unfold state_of, mbind, M_bind, emit, modify, prepend; simpl.
  by apply insert_id.
Qed.

Lemma cache_path_ne_sym db name : db ≠ cache_path db name.
Proof. intros H. by eapply cache_path_ne. Qed.

(** An event is among the events of a finished run. *)
Ltac event_here :=
  cbn [take];
  solve [repeat first [apply list_elem_of_here | apply list_elem_of_further]].

Ltac leaf_simpl :=
  unfold events_of, result_of, state_of;
  cbn [fst snd vars fs dirs mtimes metadb
       set_vars set_fs set_dirs set_mtimes set_metadb].

(** The event at position [i] of a finished run is a save of the metadata:
    find the position, or refute it. *)
Ltac save_position i Hi :=
  first
    [ exfalso; apply list_elem_of_lookup_2 in Hi; in_events Hi; fail
    | repeat (destruct i as [|i]; cbn [lookup list_lookup] in Hi;
              try discriminate Hi) ].

(** C1: after a successful pull the downloaded body is stored in the cache
    of the database under a file whose name is the hexadecimal SHA-256
    digest of the body; the pull writes no other file than this one and the
    working copy; and writing the same bytes to the cache file again leaves
    the stored files unchanged. *)
Theorem pull_content_address E args s :
  let o := pullCmd E args s in
  let db := nth 0 args EmptyString in
  result_of o = Ok tt →
  ∃ r resp body,
    let shaSum := hex_EncodeToString (sha256_Sum256 body) in
    let path := cache_path db shaSum in
    EvHTTP r (NetResp resp body) ∈ events_of o
    ∧ EvWriteFile path body WriteOk ∈ events_of o
    ∧ filepath_Base path = shaSum
    ∧ fs (state_of o) !! path = Some body
    ∧ (∀ p data w, EvWriteFile p data w ∈ events_of o → p = path ∨ p = db)
    ∧ fs (state_of (ioutil_WriteFile E path body (state_of o))) = fs (state_of o).
Proof.
  change (runs (pullCmd E args) s (λ o,
    result_of o = Ok tt →
    ∃ r resp body,
      let shaSum := hex_EncodeToString (sha256_Sum256 body) in
      let path := cache_path (nth 0 args EmptyString) shaSum in
      EvHTTP r (NetResp resp body) ∈ events_of o
      ∧ EvWriteFile path body WriteOk ∈ events_of o
      ∧ filepath_Base path = shaSum
      ∧ fs (state_of o) !! path = Some body
      ∧ (∀ p data w, EvWriteFile p data w ∈ events_of o →
           p = path ∨ p = nth 0 args EmptyString)
      ∧ fs (state_of (ioutil_WriteFile E path body (state_of o))) = fs (state_of o))).
  unfold pullCmd. run_all.
  all: leaf_simpl; intros Hok; try discriminate Hok.
  all: eexists _, _, _; cbv zeta; split_and!;
    [ event_here
    | event_here
    | apply filepath_Base_cache_path;
      [apply digest_name_nonempty | apply hex_no_slash]
    | apply lookup_content
    | intros p data w Hin; in_events Hin; injection Hin as -> _ _; auto
    | apply WriteFile_same_bytes; [assumption | apply lookup_content] ].
Qed.

Lemma pull_content_address_witness :
  let o := pullCmd (Scenario.pull_env Scenario.date1 Scenario.all_ok) ["sales.db"]
             (Scenario.state (Scenario.flags "master" EmptyString "master" EmptyString) ∅) in
  ∃ body,
    let shaSum := hex_EncodeToString (sha256_Sum256 body) in
    filepath_Base (cache_path "sales.db" shaSum) = shaSum
    ∧ fs (state_of o) !! cache_path "sales.db" shaSum = Some body.
Proof.
  destruct (pull_content_address
              (Scenario.pull_env Scenario.date1 Scenario.all_ok) ["sales.db"]
              (Scenario.state (Scenario.flags "master" EmptyString "master" EmptyString) ∅))
    as (r & resp & body & _ & _ & Hbase & Hfs & _).
  - vm_compute. reflexivity.
  - exists body. split; [exact Hbase | exact Hfs].
Defined.

(** C4: in every pull, when the metadata is saved the downloaded body has
    already been written, completely, to the cache and to the working copy;
    and when the pull ends with the working copy written but without a
    save, the body is in the cache and in the working copy and the stored
    metadata is what it was before the pull. *)
Theorem pull_saves_metadata_last E args s :
  let o := pullCmd E args s in
  let db := nth 0 args EmptyString in
  (∀ i d record w, events_of o !! i = Some (EvSaveMetadata d record w) →
     ∃ body,
       EvWriteFile (cache_path db (hex_EncodeToString (sha256_Sum256 body)))
         body WriteOk ∈ take i (events_of o)
       ∧ EvWriteFile db body WriteOk ∈ take i (events_of o))
  ∧ (∀ body, EvWriteFile db body WriteOk ∈ events_of o →
       (∀ d record w, EvSaveMetadata d record w ∉ events_of o) →
       fs (state_of o) !! cache_path db (hex_EncodeToString (sha256_Sum256 body))
       = Some body
       ∧ fs (state_of o) !! db = Some body
       ∧ metadb (state_of o) = metadb s).
Proof.
  change (runs (pullCmd E args) s (λ o,
    (∀ i d record w, events_of o !! i = Some (EvSaveMetadata d record w) →
       ∃ body,
         EvWriteFile (cache_path (nth 0 args EmptyString)
                        (hex_EncodeToString (sha256_Sum256 body)))
           body WriteOk ∈ take i (events_of o)
         ∧ EvWriteFile (nth 0 args EmptyString) body WriteOk ∈ take i (events_of o))
    ∧ (∀ body, EvWriteFile (nth 0 args EmptyString) body WriteOk ∈ events_of o →
         (∀ d record w, EvSaveMetadata d record w ∉ events_of o) →
         fs (state_of o) !! cache_path (nth 0 args EmptyString)
                               (hex_EncodeToString (sha256_Sum256 body))
         = Some body
         ∧ fs (state_of o) !! nth 0 args EmptyString = Some body
         ∧ metadb (state_of o) = metadb s))).
  unfold pullCmd. run_all.
  all: leaf_simpl; split.
  all: try (intros i d record w Hi; save_position i Hi;
            eexists; split; event_here; fail).
  all: try (intros body' Hw Hno; in_events Hw;
      try (injection Hw as Hw _; exfalso; by eapply cache_path_ne);
      try (injection Hw as ->);
      first [ exfalso; eapply Hno; event_here
            | split_and!;
              [ apply lookup_content | apply lookup_insert_eq | reflexivity ] ];
      fail).
Qed.

Lemma pull_saves_metadata_last_witness :
  let o := pullCmd (Scenario.pull_env Scenario.date1 Scenario.all_ok) ["sales.db"]
             (Scenario.state (Scenario.flags "master" EmptyString "master" EmptyString) ∅) in
  events_of o !! 6%nat = Some (EvSaveMetadata "sales.db" "{active:master}" WriteOk)
  ∧ ∃ body,
      EvWriteFile (cache_path "sales.db" (hex_EncodeToString (sha256_Sum256 body)))
        body WriteOk ∈ take 6 (events_of o)
      ∧ EvWriteFile "sales.db" body WriteOk ∈ take 6 (events_of o).
Proof.
  assert (events_of (pullCmd (Scenario.pull_env Scenario.date1 Scenario.all_ok)
                       ["sales.db"]
                       (Scenario.state
                          (Scenario.flags "master" EmptyString "master" EmptyString) ∅))
          !! 6%nat = Some (EvSaveMetadata "sales.db" "{active:master}" WriteOk)) as H
    by (vm_compute; reflexivity).
  split; [exact H|].
  exact (proj1 (pull_saves_metadata_last
                  (Scenario.pull_env Scenario.date1 Scenario.all_ok) ["sales.db"]
                  (Scenario.state
                     (Scenario.flags "master" EmptyString "master" EmptyString) ∅))
           6%nat _ _ _ H).
Defined.

(** C7, as the code has it: a pull writes the cache entry first and the
    working copy second, and undoes nothing.  Whenever the working copy was
    written to, completely or not, the cache entry of the downloaded body
    is completely written; and as long as no cache entry was completely
    written, the working copy is untouched. *)
Theorem pull_write_order E args s :
  let o := pullCmd E args s in
  let db := nth 0 args EmptyString in
  (∀ data w, EvWriteFile db data w ∈ events_of o →
     fs (state_of o) !! cache_path db (hex_EncodeToString (sha256_Sum256 data))
     = Some data)
  ∧ ((∀ body, EvWriteFile (cache_path db (hex_EncodeToString (sha256_Sum256 body)))
                body WriteOk ∉ events_of o) →
     fs (state_of o) !! db = fs s !! db).
Proof.
  change (runs (pullCmd E args) s (λ o,
    (∀ data w, EvWriteFile (nth 0 args EmptyString) data w ∈ events_of o →
       fs (state_of o) !! cache_path (nth 0 args EmptyString)
                             (hex_EncodeToString (sha256_Sum256 data))
       = Some data)
    ∧ ((∀ body, EvWriteFile (cache_path (nth 0 args EmptyString)
                               (hex_EncodeToString (sha256_Sum256 body)))
                  body WriteOk ∉ events_of o) →
       fs (state_of o) !! nth 0 args EmptyString = fs s !! nth 0 args EmptyString))).
  unfold pullCmd. run_all.
  all: leaf_simpl; split.
  all: try (intros data w Hin; in_events Hin;
      try (injection Hin as Hin _ _; exfalso; by eapply cache_path_ne_sym);
      injection Hin as -> _;
      first [ apply lookup_content
            | rewrite lookup_insert_ne by apply cache_path_ne_sym;
              apply lookup_insert_eq
            | apply lookup_insert_eq ]; fail).
  all: intros Hno;
      first [ reflexivity
            | by rewrite lookup_insert_ne by apply cache_path_ne
            | exfalso; eapply Hno; event_here ].
Qed.

(** C7 fails: when the write of the working copy stops after four bytes,
    the pull fails, the working copy holds the first four bytes of the
    body, and the cache holds the complete body under its digest; and when
    the working copy cannot be opened for writing, the pull fails with the
    cache entry written and the working copy not written at all. *)
Lemma pull_partial_working_copy :
  let short := λ p : string, if decide (p = "sales.db") then ShortWrite 4 else WriteOk in
  let denied := λ p : string, if decide (p = "sales.db") then OpenFails else WriteOk in
  let s := Scenario.state (Scenario.flags "master" EmptyString "master" EmptyString) ∅ in
  let entry := cache_path "sales.db"
                 (hex_EncodeToString (sha256_Sum256 Scenario.body17)) in
  let o1 := pullCmd (Scenario.pull_env Scenario.date1 short) ["sales.db"] s in
  let o2 := pullCmd (Scenario.pull_env Scenario.date1 denied) ["sales.db"] s in
  fs s !! "sales.db" = None
  ∧ fs s !! entry = None
  ∧ result_of o1 = Err (PathError "write" "sales.db")
  ∧ fs (state_of o1) !! "sales.db" = Some "0123"
  ∧ fs (state_of o1) !! entry = Some Scenario.body17
  ∧ result_of o2 = Err (PathError "open" "sales.db")
  ∧ fs (state_of o2) !! "sales.db" = None
  ∧ fs (state_of o2) !! entry = Some Scenario.body17.
Proof. vm_compute. repeat split; reflexivity. Qed.

(** C8, as the code has it: when the body has been downloaded and written
    to the working copy, and the [Content-Disposition] header has the shape
    the command looks for (four fields separated by semicolons, the third
    one being the [modification-date] parameter), and the timestamp found
    there does not parse, the pull reports the parse error, the working
    copy keeps the downloaded body, and the stored metadata is not
    touched. *)
Theorem pull_malformed_timestamp E args s r resp body c :
  let o := pullCmd E args s in
  let db := nth 0 args EmptyString in
  EvHTTP r (NetResp resp body) ∈ events_of o →
  EvWriteFile db body WriteOk ∈ events_of o →
  modification_date (Header_Get resp "Content-Disposition") = Some c →
  time_Parse E c = None →
  result_of o = Err (time_ParseError c)
  ∧ fs (state_of o) !! db = Some body
  ∧ metadb (state_of o) = metadb s.
Proof.
  change (runs (pullCmd E args) s (λ o,
    EvHTTP r (NetResp resp body) ∈ events_of o →
    EvWriteFile (nth 0 args EmptyString) body WriteOk ∈ events_of o →
    modification_date (Header_Get resp "Content-Disposition") = Some c →
    time_Parse E c = None →
    result_of o = Err (time_ParseError c)
    ∧ fs (state_of o) !! nth 0 args EmptyString = Some body
    ∧ metadb (state_of o) = metadb s)).
  unfold pullCmd. run_all.
  all: leaf_simpl; intros Hin Hw Hdate Hparse; in_events Hin.
  all: injection Hin as -> -> ->.
  all: in_events Hw.
  all: try (injection Hw as Hw; exfalso; by eapply cache_path_ne).
  all: try congruence.
  all: split_and!; [congruence | apply lookup_insert_eq | reflexivity].
Qed.

Lemma pull_malformed_timestamp_witness :
  let o := pullCmd (Scenario.pull_env "yesterday" Scenario.all_ok) ["sales.db"]
             (Scenario.state (Scenario.flags "master" EmptyString "master" EmptyString) ∅) in
  result_of o = Err (time_ParseError "yesterday")
  ∧ fs (state_of o) !! "sales.db" = Some Scenario.body17
  ∧ metadb (state_of o) = ∅.
Proof.
  eapply (pull_malformed_timestamp
            (Scenario.pull_env "yesterday" Scenario.all_ok) ["sales.db"]
            (Scenario.state (Scenario.flags "master" EmptyString "master" EmptyString) ∅)
            _ (Scenario.ok_response "yesterday") Scenario.body17 "yesterday").
  - vm_compute. apply list_elem_of_further, list_elem_of_here.
  - vm_compute. do 4 apply list_elem_of_further. apply list_elem_of_here.
  - vm_compute. reflexivity.
  - reflexivity.
Defined.

(** C8 fails: a [Content-Disposition] header of three fields carries the
    [modification-date] parameter with a timestamp that does not parse;
    the download and the write of the working copy succeed; the pull does
    not look at the parameter, reports no error, and leaves the working
    copy with the time of the write. *)
Lemma pull_ignores_misplaced_timestamp :
  let disp := "attachment; modification-date=" +:+ dquote +:+ "yesterday" +:+ dquote
              +:+ "; size=17" in
  let resp := {| StatusCode := 200; Status := "200 OK";
                 Header := {[ "Content-Disposition" := [disp] ]} |} in
  let E := Scenario.env (λ _, NetResp resp Scenario.body17)
             Scenario.all_ok Scenario.all_ok in
  let s := Scenario.state (Scenario.flags "master" EmptyString "master" EmptyString) ∅ in
  let o := pullCmd E ["sales.db"] s in
  time_Parse E "yesterday" = None
  ∧ EvWriteFile "sales.db" Scenario.body17 WriteOk ∈ events_of o
  ∧ result_of o = Ok tt
  ∧ fs (state_of o) !! "sales.db" = Some Scenario.body17
  ∧ mtimes (state_of o) !! "sales.db" = Some (time_Now E).
Proof.
  vm_compute. split; [reflexivity|]. split.
  - do 4 apply list_elem_of_further. apply list_elem_of_here.
  - repeat split; reflexivity.
Qed.

(** * Further properties of the commands *)

(** ** Every run of the pull command *)

(** Rewrite with the equations the run has collected. *)
Ltac use_equations :=
  repeat match goal with
  | H : ?x = _ |- context [?x] => rewrite H
  end.

(** What holds of the outcome of every run of the pull command: the flags
    and the other files and records are left alone; the one download
    request, sent only for a selector the metadata knows; a failed
    download changes nothing; the state after a success; the report; the
    cache directory is created only when it is missing. *)
Lemma pull_runs E args s :
  runs (pullCmd E args) s (λ o,
    let db := nth 0 args EmptyString in
    let v := vars s in
    vars (state_of o) = vars s
    ∧ ((∀ p, p ≠ db →
          (∀ data, p ≠ cache_path db (hex_EncodeToString (sha256_Sum256 data))) →
          fs (state_of o) !! p = fs s !! p)
       ∧ (∀ d, d ≠ db → metadb (state_of o) !! d = metadb s !! d))
    ∧ (∀ r res, EvHTTP r res ∈ events_of o →
         r = rq_Query (rq_Get (cloud E +:+ "/" +:+ certUser E +:+ "/" +:+ db))
               (if decide (pullCmdBranch v ≠ EmptyString)
                then "branch=" +:+ url_QueryEscape (pullCmdBranch v)
                else "commit=" +:+ url_QueryEscape (pullCmdCommit v)))
    ∧ (∀ r res, EvHTTP r res ∈ events_of o →
         ∃ meta, remote_metadata E db = inr meta
           ∧ (pullCmdBranch v ≠ EmptyString → is_Some (Branches meta !! pullCmdBranch v))
           ∧ (pullCmdCommit v ≠ EmptyString → is_Some (Commits meta !! pullCmdCommit v)))
    ∧ (∀ r res, EvHTTP r res ∈ events_of o →
         match res with
         | NetErrs _ => True
         | NetResp resp _ => StatusCode resp ≠ http_StatusOK
         end →
         state_of o = s
         ∧ result_of o = Err
             match res with
             | NetErrs _ => errors_New "Error when downloading database"
             | NetResp resp _ =>
                 if decide (StatusCode resp = http_StatusNotFound) then
                   if decide (pullCmdBranch v ≠ EmptyString) then
                     errors_New "That database & branch aren't known on DBHub.io"
                   else if decide (pullCmdCommit v ≠ EmptyString) then
                     errors_New ("Requested database not found with commit "
                                 +:+ pullCmdCommit v +:+ ".")
                   else errors_New "Requested database not found"
                 else
                   errors_New ("Download failed with an error: HTTP status "
                               +:+ fmt_d (StatusCode resp) +:+ " - '"
                               +:+ Status resp +:+ "'" +:+ newline)
             end)
    ∧ (result_of o = Ok tt →
         ∃ resp body meta,
           (∃ r, EvHTTP r (NetResp resp body) ∈ events_of o)
           ∧ remote_metadata E db = inr meta
           ∧ fs (state_of o) !! db = Some body
           ∧ metadb (state_of o) !! db
             = Some (json_MarshalIndent E
                       (if decide (Header_Get resp "Branch" ≠ EmptyString)
                        then set_ActiveBranch (Header_Get resp "Branch") meta
                        else meta))
           ∧ mtimes (state_of o) !! db
             = Some match modification_date (Header_Get resp "Content-Disposition") with
                    | Some c => default (time_Now E) (time_Parse E c)
                    | None => time_Now E
                    end)
    ∧ (∀ format a, EvPrintf format a ∈ events_of o →
         result_of o = Ok tt
         ∧ last (events_of o) = Some (EvPrintf format a)
         ∧ ∃ body, EvWriteFile db body WriteOk ∈ events_of o
             ∧ AInt (Z.of_nat (String.length body)) ∈ a)
    ∧ (∀ p, EvMkdirAll p ∈ events_of o →
         p = filepath_Join [".dio"; db; "db"] ∧ stat s p = None ∧ mkdir_ok E p = true)).
Proof.
  match goal with |- runs _ _ ?P => set (Q := P) end.
  unfold pullCmd. run_all.
  all: subst Q; cbv beta; leaf_simpl; cbv zeta; split; [reflexivity|].
  all: split;
    [ split;
      [ intros p Hdb Hcp;
        rewrite ?lookup_insert_ne
          by (intros Heq; first [exact (Hdb (eq_sym Heq)) | exact (Hcp _ (eq_sym Heq))]);
        reflexivity
      | intros d Hd; rewrite ?lookup_insert_ne by (intros Heq; exact (Hd (eq_sym Heq)));
        reflexivity ]
    | ].
  all: split;
    [ intros r res Hin; in_events Hin; injection Hin as -> _;
      first [reflexivity | destruct (decide (pullCmdBranch _ ≠ _)); first [reflexivity | contradiction]]
    | ].
  all: split;
    [ intros r res Hin; in_events Hin;
      (eexists; (split; [first [reflexivity | eassumption]|]);
       (split; intros Hsel;
        first [contradiction | by apply not_eq_None_Some | exfalso; from_context]))
    | ].
  all: split;
    [ intros r res Hin; in_events Hin; injection Hin as _ ->;
      intros Hfail;
      first [ contradiction
            | (split; [reflexivity|]); repeat case_decide;
              first [reflexivity | contradiction | (exfalso; from_context)] ]
    | ].
  all: split;
    [ intros Hok; try discriminate Hok;
      eexists _, _, _;
      (split; [eexists; event_here|]);
      (split; [first [reflexivity | eassumption]|]);
      (split; [apply lookup_insert_eq|]);
      (split; [apply lookup_insert_eq|]);
      use_equations; apply lookup_insert_eq
    | ].
  all: split;
    [ intros ? ? Hin; in_events Hin; injection Hin as -> ->;
      (split; [reflexivity|]); (split; [reflexivity|]);
      eexists; (split; [event_here|]); event_here
    | ].
  all: try (intros p Hin; in_events Hin; injection Hin as ->; split_and!;
       first [assumption | reflexivity]; fail).
  all: try (intros p Hin; in_events Hin; fail).
Qed.

(** X1: a pull changes no flag variable, no file other than the working
    copy of the database and the entries of its cache, and no stored
    metadata record other than the one of the database. *)
Theorem pull_changes_only_its_database E args s :
  let o := pullCmd E args s in
  let db := nth 0 args EmptyString in
  vars (state_of o) = vars s
  ∧ (∀ p, p ≠ db →
       (∀ data, p ≠ cache_path db (hex_EncodeToString (sha256_Sum256 data))) →
       fs (state_of o) !! p = fs s !! p)
  ∧ (∀ d, d ≠ db → metadb (state_of o) !! d = metadb s !! d).
Proof.
  destruct (pull_runs E args s) as (Hv & [Hfs Hm] & _).
  split; [exact Hv|]. split; [exact Hfs | exact Hm].
Qed.

(** X2: every request a pull sends is a GET of the database of the user
    on the remote, with exactly one query: the escaped branch when a branch
    was given, and the escaped commit id, be it empty, otherwise. *)
Theorem pull_download_request E args s r res :
  let v := vars s in
  EvHTTP r res ∈ events_of (pullCmd E args s) →
  r = {| Method := "GET";
         Url := cloud E +:+ "/" +:+ certUser E +:+ "/" +:+ nth 0 args EmptyString;
         ContentType := EmptyString;
         QueryData :=
           [if decide (pullCmdBranch v ≠ EmptyString)
            then "branch=" +:+ url_QueryEscape (pullCmdBranch v)
            else "commit=" +:+ url_QueryEscape (pullCmdCommit v)];
         FileData := [];
         Errors := [] |}.
Proof.
  destruct (pull_runs E args s) as (_ & _ & Hreq & _).
  intros v Hin. exact (Hreq r res Hin).
Qed.

Lemma pull_download_request_witness :
  let o := pullCmd (Scenario.pull_env Scenario.date1 Scenario.all_ok) ["sales.db"]
             (Scenario.state (Scenario.flags "master" EmptyString "master" EmptyString) ∅) in
  ∃ r res,
    EvHTTP r res ∈ events_of o
    ∧ Method r = "GET"
    ∧ Url r = "https://dbhub.io/alice/sales.db"
    ∧ QueryData r = ["branch=master"].
Proof.
  intros o.
  assert (∃ r res rest, events_of o = EvMetadataRequest "sales.db" :: EvHTTP r res :: rest)
    as (r & res & rest & Hev) by (vm_compute; eauto).
  assert (EvHTTP r res ∈ events_of o) as Hin
    by (rewrite Hev; apply list_elem_of_further, list_elem_of_here).
  exists r, res. split; [exact Hin|].
  rewrite (pull_download_request
             (Scenario.pull_env Scenario.date1 Scenario.all_ok) ["sales.db"]
             (Scenario.state (Scenario.flags "master" EmptyString "master" EmptyString) ∅)
             r res Hin).
  vm_compute. repeat split; reflexivity.
Defined.

(** X3: a pull sends a download request only after the metadata of the
    database was retrieved, and only for a selector that this metadata
    lists: a branch that was given is among its branches, a commit that was
    given is among its commits. *)
Theorem pull_downloads_known_selector_only E args s r res :
  let v := vars s in
  EvHTTP r res ∈ events_of (pullCmd E args s) →
  ∃ meta,
    remote_metadata E (nth 0 args EmptyString) = inr meta
    ∧ (pullCmdBranch v ≠ EmptyString → is_Some (Branches meta !! pullCmdBranch v))
    ∧ (pullCmdCommit v ≠ EmptyString → is_Some (Commits meta !! pullCmdCommit v)).
Proof.
  destruct (pull_runs E args s) as (_ & _ & _ & Hsel & _).
  intros v Hin. exact (Hsel r res Hin).
Qed.

Lemma pull_downloads_known_selector_only_witness :
  is_Some (Branches Scenario.meta1 !! "master").
Proof.
  destruct (pull_downloads_known_selector_only
              (Scenario.pull_env Scenario.date1 Scenario.all_ok) ["sales.db"]
              (Scenario.state (Scenario.flags "master" EmptyString "master" EmptyString) ∅)
              (rq_Query (rq_Get "https://dbhub.io/alice/sales.db") "branch=master")
              (NetResp (Scenario.ok_response Scenario.date1) Scenario.body17))
    as (meta & Hmeta & Hb & _).
  - vm_compute. apply list_elem_of_further, list_elem_of_here.
  - injection Hmeta as <-. apply Hb. discriminate.
Defined.

(** X4: a download that fails, in transport or with another status than
    200, ends the pull with the state exactly as it was before, and with
    the error of the case: the fixed transport error; for status 404 the
    message of the selector that was given; the status code and text
    otherwise. *)
Theorem pull_failed_download_changes_nothing E args s r res :
  let o := pullCmd E args s in
  let v := vars s in
  EvHTTP r res ∈ events_of o →
  match res with
  | NetErrs _ => True
  | NetResp resp _ => StatusCode resp ≠ http_StatusOK
  end →
  state_of o = s
  ∧ result_of o = Err
      match res with
      | NetErrs _ => errors_New "Error when downloading database"
      | NetResp resp _ =>
          if decide (StatusCode resp = http_StatusNotFound) then
            if decide (pullCmdBranch v ≠ EmptyString) then
              errors_New "That database & branch aren't known on DBHub.io"
            else if decide (pullCmdCommit v ≠ EmptyString) then
              errors_New ("Requested database not found with commit "
                          +:+ pullCmdCommit v +:+ ".")
            else errors_New "Requested database not found"
          else
            errors_New ("Download failed with an error: HTTP status "
                        +:+ fmt_d (StatusCode resp) +:+ " - '"
                        +:+ Status resp +:+ "'" +:+ newline)
      end.
Proof.
  destruct (pull_runs E args s) as (_ & _ & _ & _ & Hfail & _).
  intros o v Hin Hres. exact (Hfail r res Hin Hres).
Qed.

Lemma pull_failed_download_changes_nothing_witness :
  let E := Scenario.env (λ _, NetResp Scenario.server_error EmptyString)
             Scenario.all_ok Scenario.all_ok in
  let s := Scenario.state (Scenario.flags EmptyString "c1" "master" EmptyString)
             Scenario.untracked in
  let o := pullCmd E ["sales.db"] s in
  state_of o = s
  ∧ result_of o
    = Err (errors_New ("Download failed with an error: HTTP status 500 - "
                       +:+ "'500 Internal Server Error'" +:+ newline)).
Proof.
  intros E s o.
  apply (pull_failed_download_changes_nothing E ["sales.db"] s
           (rq_Query (rq_Get "https://dbhub.io/alice/sales.db") "commit=c1")
           (NetResp Scenario.server_error EmptyString)).
  - vm_compute. apply list_elem_of_further, list_elem_of_here.
  - vm_compute. discriminate.
Defined.

(** X5: after a pull that succeeds, the download was answered with status
    200; the working copy holds the downloaded body; its modification time
    is the parsed timestamp when [modification_date] finds one in the
    [Content-Disposition] header, that is when the header has four fields
    separated by semicolons with the [modification-date] parameter as the
    third, and the time of the write for every other header, also one that
    carries the parameter elsewhere; and the stored metadata is the
    retrieved metadata, with the branch the server named as active branch
    when it named one. *)
Theorem pull_success_state E args s :
  let o := pullCmd E args s in
  let db := nth 0 args EmptyString in
  result_of o = Ok tt →
  ∃ r resp body meta,
    EvHTTP r (NetResp resp body) ∈ events_of o
    ∧ StatusCode resp = http_StatusOK
    ∧ remote_metadata E db = inr meta
    ∧ fs (state_of o) !! db = Some body
    ∧ (∀ c t, modification_date (Header_Get resp "Content-Disposition") = Some c →
              time_Parse E c = Some t → mtimes (state_of o) !! db = Some t)
    ∧ (modification_date (Header_Get resp "Content-Disposition") = None →
       mtimes (state_of o) !! db = Some (time_Now E))
    ∧ metadb (state_of o) !! db
      = Some (json_MarshalIndent E
                (if decide (Header_Get resp "Branch" ≠ EmptyString)
                 then set_ActiveBranch (Header_Get resp "Branch") meta
                 else meta)).
Proof.
  destruct (pull_runs E args s) as (_ & _ & _ & _ & Hfail & Hok & _).
  intros o db Hres.
  destruct (Hok Hres) as (resp & body & meta & [r Hin] & Hmeta & Hfs & Hdb & Hmt).
  exists r, resp, body, meta.
  split; [exact Hin|]. split.
  { apply dec_stable. intros Hst.
    destruct (Hfail r _ Hin Hst) as [_ Herr].
    fold o in Herr. rewrite Hres in Herr. discriminate Herr. }
  split; [exact Hmeta|]. split; [exact Hfs|].
  fold o db in Hmt.
  split; [|split; [|exact Hdb]].
  - intros c t Hc Ht. by rewrite Hmt, Hc, Ht.
  - intros Hc. by rewrite Hmt, Hc.
Qed.

Lemma pull_success_state_witness :
  let o := pullCmd (Scenario.pull_env Scenario.date1 Scenario.all_ok) ["sales.db"]
             (Scenario.state (Scenario.flags "master" EmptyString "master" EmptyString) ∅) in
  ∃ body record,
    fs (state_of o) !! "sales.db" = Some body
    ∧ metadb (state_of o) !! "sales.db" = Some record.
Proof.
  destruct (pull_success_state
              (Scenario.pull_env Scenario.date1 Scenario.all_ok) ["sales.db"]
              (Scenario.state (Scenario.flags "master" EmptyString "master" EmptyString) ∅))
    as (r & resp & body & meta & _ & _ & _ & Hfs & _ & _ & Hdb).
  - vm_compute. reflexivity.
  - eexists _, _. split; [exact Hfs | exact Hdb].
Defined.

(** X6: a pull prints only when it succeeds, and nothing happens after the
    print; what it prints reports the number of bytes of the body that was
    written to the working copy. *)
Theorem pull_reports_last E args s format a :
  let o := pullCmd E args s in
  EvPrintf format a ∈ events_of o →
  result_of o = Ok tt
  ∧ last (events_of o) = Some (EvPrintf format a)
  ∧ ∃ body,
      EvWriteFile (nth 0 args EmptyString) body WriteOk ∈ events_of o
      ∧ AInt (Z.of_nat (String.length body)) ∈ a.
Proof.
  destruct (pull_runs E args s) as (_ & _ & _ & _ & _ & _ & Hprint & _).
  intros o Hin. exact (Hprint format a Hin).
Qed.

Lemma pull_reports_last_witness :
  let o := pullCmd (Scenario.pull_env Scenario.date1 Scenario.all_ok) ["sales.db"]
             (Scenario.state (Scenario.flags "master" EmptyString "master" EmptyString) ∅) in
  ∃ format a, last (events_of o) = Some (EvPrintf format a) ∧ AInt 17 ∈ a.
Proof.
  intros o.
  assert (∃ format a, last (events_of o) = Some (EvPrintf format a) ∧ AInt 17 ∈ a)
    as (format & a & Hlast & Ha).
  { vm_compute. eexists _, _. split; [reflexivity|].
    do 2 apply list_elem_of_further. apply list_elem_of_here. }
  assert (EvPrintf format a ∈ events_of o) as Hin.
  { apply last_Some in Hlast as [l ->]. apply elem_of_app. right.
    apply list_elem_of_here. }
  destruct (pull_reports_last
              (Scenario.pull_env Scenario.date1 Scenario.all_ok) ["sales.db"]
              (Scenario.state (Scenario.flags "master" EmptyString "master" EmptyString) ∅)
              format a Hin) as (_ & Hl & _).
  exists format, a. split; [exact Hl | exact Ha].
Defined.

(** X7: a pull creates the cache directory of the database only when
    [os.Stat] does not find it, and creates no other directory. *)
Theorem pull_creates_missing_cache_directory_only E args s p :
  EvMkdirAll p ∈ events_of (pullCmd E args s) →
  p = filepath_Join [".dio"; nth 0 args EmptyString; "db"]
  ∧ stat s p = None
  ∧ mkdir_ok E p = true.
Proof.
  destruct (pull_runs E args s) as (_ & _ & _ & _ & _ & _ & _ & Hmk).
  intros Hin. exact (Hmk p Hin).
Qed.

Lemma pull_creates_missing_cache_directory_only_witness :
  stat (Scenario.state (Scenario.flags "master" EmptyString "master" EmptyString) ∅)
    ".dio/sales.db/db" = None.
Proof.
  destruct (pull_creates_missing_cache_directory_only
              (Scenario.pull_env Scenario.date1 Scenario.all_ok) ["sales.db"]
              (Scenario.state (Scenario.flags "master" EmptyString "master" EmptyString) ∅)
              ".dio/sales.db/db") as (_ & Hst & _).
  - vm_compute. do 2 apply list_elem_of_further. apply list_elem_of_here.
  - exact Hst.
Defined.

(** X8: when the metadata of the database is retrieved and does not list
    the branch, or the commit, that was given, the pull fails with the
    error of that selector; it has requested the metadata and done nothing
    else, and the state is exactly as before. *)
Theorem pull_unknown_selector E args s meta :
  let v := vars s in
  let db := nth 0 args EmptyString in
  length args = 1%nat →
  ¬ (pullCmdBranch v ≠ EmptyString ∧ pullCmdCommit v ≠ EmptyString) →
  remote_metadata E db = inr meta →
  (pullCmdBranch v ≠ EmptyString ∧ Branches meta !! pullCmdBranch v = None)
  ∨ (pullCmdCommit v ≠ EmptyString ∧ Commits meta !! pullCmdCommit v = None) →
  pullCmd E args s
  = (Err (errors_New (if decide (pullCmdBranch v ≠ EmptyString)
                      then "The requested branch doesn't exist"
                      else "The requested commit doesn't exist")),
     s, [EvMetadataRequest db]).
Proof.
  intros v db Hlen Hboth Hmeta Hsel. subst v db.
  match goal with
  | |- ?m ?s0 = ?o => change (runs m s0 (λ o', o' = o))
  end.
  unfold pullCmd. run_all.
  all: try lia.
  all: try (destruct Hsel as [[? ?]|[? ?]]; exfalso; from_context).
  all: destruct Hsel as [[? ?]|[? ?]]; try contradiction;
    destruct (decide _); first [reflexivity | contradiction | exfalso; from_context].
Qed.

Lemma pull_unknown_selector_witness :
  let s := Scenario.state (Scenario.flags "dev" EmptyString "master" EmptyString) ∅ in
  pullCmd (Scenario.pull_env Scenario.date1 Scenario.all_ok) ["sales.db"] s
  = (Err (errors_New "The requested branch doesn't exist"), s,
     [EvMetadataRequest "sales.db"]).
Proof.
  intros s.
  apply (pull_unknown_selector
           (Scenario.pull_env Scenario.date1 Scenario.all_ok) ["sales.db"] s
           Scenario.meta1).
  - reflexivity.
  - vm_compute. intros [_ H]. by apply H.
  - reflexivity.
  - left. vm_compute. split; [discriminate | reflexivity].
Defined.

(** X9: both commands take exactly one argument: without an argument, or
    with more than one, they fail at once with the error of the case,
    without any effect. *)
Theorem commands_take_one_argument E args s :
  length args ≠ 1%nat →
  pullCmd E args s
  = (Err (errors_New
            (if decide (length args = 0%nat) then "No database file specified"
             else "Only one database can be downloaded at a time (for now)")),
     s, [])
  ∧ pushCmd E args s
    = (Err (errors_New
              (if decide (length args = 0%nat) then "No database file specified"
               else "Only one database can be uploaded at a time (for now)")),
       s, []).
Proof.
  intros Hlen. unfold pullCmd, pushCmd, when.
  destruct (decide (length args = 0%nat)) as [H0|H0].
  - rewrite !(bool_decide_eq_true_2 _ H0). split; reflexivity.
  - rewrite !(bool_decide_eq_false_2 _ H0).
    assert (1 < length args)%nat as H1 by lia.
    rewrite !(bool_decide_eq_true_2 _ H1). split; reflexivity.
Qed.

Lemma commands_take_one_argument_witness :
  let s := Scenario.state (Scenario.flags EmptyString EmptyString "master" EmptyString) ∅ in
  pullCmd (Scenario.pull_env Scenario.date1 Scenario.all_ok) [] s
  = (Err (errors_New "No database file specified"), s, [])
  ∧ pushCmd (Scenario.pull_env Scenario.date1 Scenario.all_ok) ["a.db"; "b.db"] s
    = (Err (errors_New "Only one database can be uploaded at a time (for now)"), s, []).
Proof.
  intros s. split.
  - apply (commands_take_one_argument
             (Scenario.pull_env Scenario.date1 Scenario.all_ok) [] s). discriminate.
  - apply (commands_take_one_argument
             (Scenario.pull_env Scenario.date1 Scenario.all_ok) ["a.db"; "b.db"] s).
    discriminate.
Defined.

(** ** The modification date of a download *)

Lemma mem_ascii_cons c x s :
  mem_ascii c (String x s) = Ascii.eqb c x || mem_ascii c s.
Proof. reflexivity. Qed.

Lemma Split_nonempty s sep : strings_Split s sep ≠ [].
Proof.
  destruct s as [|c s]; simpl; [done|].
  destruct (Ascii.eqb c sep); [done|]. by destruct (strings_Split s sep).
Qed.

(** Splitting at the first separator. *)
Lemma Split_app a b sep :
  mem_ascii sep a = false →
  strings_Split (a +:+ String sep b) sep = a :: strings_Split b sep.
Proof.
  induction a as [|c a IH]; intros Ha.
  - rewrite string_app_nil_l. simpl. by rewrite Ascii.eqb_refl.
  - rewrite mem_ascii_cons in Ha. apply orb_false_iff in Ha as [Hc Ha].
    rewrite string_app_cons. simpl.
    rewrite Ascii.eqb_sym, Hc, IH by done. reflexivity.
Qed.

Lemma Split_no_sep a sep : mem_ascii sep a = false → strings_Split a sep = [a].
Proof.
  induction a as [|c a IH]; intros Ha; [reflexivity|].
  rewrite mem_ascii_cons in Ha. apply orb_false_iff in Ha as [Hc Ha].
  simpl. rewrite Ascii.eqb_sym, Hc, IH by done. reflexivity.
Qed.

Lemma String_prefix_app p s : String.prefix p s = true → ∃ r, s = p +:+ r.
Proof.
  revert s. induction p as [|c p IH]; intros s H.
  - exists s. by rewrite string_app_nil_l.
  - destruct s as [|d s]; [discriminate|]. simpl in H.
    destruct (ascii_dec c d) as [->|]; [|discriminate].
    destruct (IH s H) as [r ->]. exists r. by rewrite string_app_cons.
Qed.

(** Trimming a string that starts with a byte outside of the cut set. *)
Lemma TrimLeft_stops c s cutset :
  mem_ascii c cutset = false → strings_TrimLeft (String c s) cutset = String c s.
Proof. intros H. simpl. by rewrite H. Qed.

Lemma mem_ascii_single c x : mem_ascii c (String x EmptyString) = Ascii.eqb c x.
Proof. unfold mem_ascii. simpl. by rewrite orb_false_r. Qed.

Lemma mem_ascii_app c a b :
  mem_ascii c (a +:+ b) = mem_ascii c a || mem_ascii c b.
Proof.
  induction a as [|x a IH]; [by rewrite string_app_nil_l|].
  by rewrite string_app_cons, !mem_ascii_cons, IH, orb_assoc.
Qed.

Lemma mem_ascii_rev c s : mem_ascii c (string_rev s) = mem_ascii c s.
Proof.
  induction s as [|x s IH]; [reflexivity|].
  simpl. rewrite mem_ascii_app, mem_ascii_single, mem_ascii_cons, IH.
  apply orb_comm.
Qed.

(** Trimming the quotes around a string without quotes. *)
Lemma Trim_quoted q d :
  mem_ascii q d = false →
  strings_Trim (String q (d +:+ String q EmptyString)) (String q EmptyString) = d.
Proof.
  intros Hd. unfold strings_Trim, strings_TrimRight.
  assert (strings_TrimLeft (String q (d +:+ String q EmptyString)) (String q EmptyString)
          = if decide (d = EmptyString) then EmptyString
            else d +:+ String q EmptyString) as ->.
  { simpl. rewrite mem_ascii_single, Ascii.eqb_refl.
    destruct d as [|c d]; simpl.
    - by rewrite mem_ascii_single, Ascii.eqb_refl.
    - rewrite mem_ascii_cons in Hd. apply orb_false_iff in Hd as [Hc _].
      by rewrite mem_ascii_single, Ascii.eqb_sym, Hc, string_app_cons. }
  destruct (decide (d = EmptyString)) as [->|Hne]; [reflexivity|].
  rewrite string_rev_app. simpl.
  rewrite mem_ascii_single, Ascii.eqb_refl, string_app_nil_l.
  destruct (string_rev d) as [|c r] eqn:Hr.
  { exfalso. apply Hne. by rewrite <- (string_rev_involutive d), Hr. }
  rewrite TrimLeft_stops.
  - by rewrite <- Hr, string_rev_involutive.
  - rewrite mem_ascii_single, Ascii.eqb_sym.
    rewrite <- mem_ascii_rev, Hr, mem_ascii_cons in Hd.
    by apply orb_false_iff in Hd as [Hc _].
Qed.

(** X10: the index the pull command uses into the fields of the
    [modification-date] parameter is in range: a string that starts with
    [modification-date=] splits at [=] into at least two fields. *)
Theorem modification_date_index_in_range a :
  strings_HasPrefix a "modification-date=" = true →
  (1 < length (strings_Split a "="))%nat.
Proof.
  intros H. apply String_prefix_app in H as [r ->].
  change ("modification-date=" +:+ r) with ("modification-date" +:+ String "=" r).
  rewrite Split_app by reflexivity.
  pose proof (Split_nonempty r "=") as Hne.
  destruct (strings_Split r "="); [done|]. simpl. lia.
Qed.

Lemma modification_date_index_in_range_witness :
  (1 < length (strings_Split "modification-date=2017" "="))%nat.
Proof. apply modification_date_index_in_range. reflexivity. Defined.

(** X11: from a [Content-Disposition] header of four fields whose third
    field is the [modification-date] parameter with a quoted value, the pull
    command extracts the value without its quotes. *)
Theorem modification_date_extracts f1 f2 f4 d :
  mem_ascii ";" f1 = false → mem_ascii ";" f2 = false →
  mem_ascii ";" f4 = false →
  mem_ascii ";" d = false → mem_ascii "=" d = false →
  mem_ascii (ascii_of_nat 34) d = false →
  modification_date
    (f1 +:+ ";" +:+ f2 +:+ "; modification-date=" +:+ dquote +:+ d +:+ dquote
     +:+ ";" +:+ f4)
  = Some d.
Proof.
  intros H1 H2 H4 Hd He Hq. unfold modification_date.
  set (third := " modification-date=" +:+ dquote +:+ d +:+ dquote).
  assert (mem_ascii ";" third = false) as H3.
  { unfold third, dquote. by rewrite !mem_ascii_app, Hd. }
  assert (f1 +:+ ";" +:+ f2 +:+ "; modification-date=" +:+ dquote +:+ d +:+ dquote
          +:+ ";" +:+ f4
          = f1 +:+ String ";" (f2 +:+ String ";" (third +:+ String ";" f4))) as ->.
  { unfold third. by rewrite !string_app_cons, !string_app_nil_l, !string_app_assoc,
      ?string_app_cons, ?string_app_nil_l. }
  destruct (decide _) as [_|Hn].
  2: { exfalso. apply Hn. by destruct f1. }
  rewrite !Split_app, (Split_no_sep f4) by done.
  destruct (decide _) as [_|Hn]; [|done].
  cbn [nth]. unfold third, dquote.
  rewrite !string_app_cons, !string_app_nil_l.
  cbn [strings_TrimLeft mem_ascii list_ascii_of_string existsb Ascii.eqb Bool.eqb orb].
  match goal with
  | |- context [strings_HasPrefix ?a _] =>
      assert (strings_HasPrefix a "modification-date=" = true) as -> by reflexivity;
      change a with ("modification-date"
                     +:+ String "=" (String (ascii_of_nat 34)
                                       (d +:+ String (ascii_of_nat 34) EmptyString)))
  end.
  rewrite Split_app by reflexivity.
  rewrite Split_no_sep.
  - cbn [nth]. by rewrite Trim_quoted.
  - rewrite mem_ascii_cons, mem_ascii_app, He. reflexivity.
Qed.

Lemma modification_date_extracts_witness :
  modification_date (Scenario.disposition Scenario.date1) = Some Scenario.date1.
Proof.
  apply (modification_date_extracts "attachment" " filename=sales.db" " size=17"
           Scenario.date1); reflexivity.
Defined.

(** ** Every run of the push command *)

Lemma commit_file_length file :
  (String.length file < String.length (commit_file file))%nat.
Proof.
  unfold commit_file, filepath_Join.
  destruct file as [|c file]; simpl;
    rewrite ?string_length_app; simpl; rewrite ?string_length_app; simpl; lia.
Qed.

(** The commit pointer of a database is another file than the database. *)
Lemma commit_file_ne file : file ≠ commit_file file.
Proof.
  intros H. pose proof (commit_file_length file) as Hl. rewrite <- H in Hl. lia.
Qed.

(** What [os.Stat] found of a regular file. *)
Ltac stat_of_file :=
  try match goal with
  | Hst : stat _ ?p = Some _, Hfs : fs _ !! ?p = Some _ |- _ =>
      unfold stat in Hst; rewrite Hfs in Hst; injection Hst as <-
  end.

(** A disjunct the run has refuted. *)
Ltac from_disjunction :=
  match goal with
  | Hn : ¬ (_ ∨ _) |- _ => apply Hn; first [left; assumption | right; assumption]
  end.

(** Rewrite with what the run read from the files. *)
Ltac file_contents :=
  repeat match goal with
  | H : fs _ !! _ = _ |- _ => rewrite H
  end.

(** What holds of the outcome of every run of the push command: the flags
    it keeps; the files and records it leaves alone; the one upload
    request, sent only after the checks; a failed upload changes nothing;
    the pointer file is written only after an accepted upload and a saved
    refresh of the metadata; the metadata is requested only after an
    accepted upload; a failed check has no effect. *)
Lemma push_runs E args s :
  runs (pushCmd E args) s (λ o,
    let file := nth 0 args EmptyString in
    let v := vars s in
    let v' := vars (state_of o) in
    let author := if decide (pushCmdName v ≠ EmptyString) then pushCmdName v
                  else default EmptyString (viper_author E) in
    let email := if decide (pushCmdEmail v ≠ EmptyString) then pushCmdEmail v
                 else default EmptyString (viper_email E) in
    (pullCmdBranch v' = pullCmdBranch v ∧ pullCmdCommit v' = pullCmdCommit v
     ∧ pushCmdEmail v' = pushCmdEmail v ∧ pushCmdLicence v' = pushCmdLicence v
     ∧ pushCmdMsg v' = pushCmdMsg v ∧ pushCmdName v' = pushCmdName v
     ∧ pushCmdForce v' = pushCmdForce v ∧ pushCmdPublic v' = pushCmdPublic v
     ∧ (pushCmdDB v ≠ EmptyString → pushCmdDB v' = pushCmdDB v))
    ∧ ((∀ p, p ≠ commit_file file →
          fs (state_of o) !! p = fs s !! p
          ∧ mtimes (state_of o) !! p = mtimes s !! p)
       ∧ dirs (state_of o) = dirs s
       ∧ (∀ d, d ≠ file → metadb (state_of o) !! d = metadb s !! d))
    ∧ (∀ r res, EvHTTP r res ∈ events_of o →
         length args = 1%nat ∧ author ≠ EmptyString ∧ email ≠ EmptyString
         ∧ pushCmdMsg v ≠ EmptyString
         ∧ ∃ data, fs s !! file = Some data
             ∧ r = {| Method := "POST";
                      Url := cloud E +:+ "/" +:+ certUser E +:+ "/" +:+ file;
                      ContentType := "multipart";
                      QueryData :=
                        [ "branch=" +:+ url_QueryEscape
                            (default (pushCmdBranch v) (fs s !! branch_file file));
                          "commitmsg=" +:+ url_QueryEscape (pushCmdMsg v);
                          "lastmodified=" +:+ url_QueryEscape
                            (time_Format E (default 0 (mtimes s !! file)));
                          "commit=" +:+ default (pushCmdCommit v)
                                          (fs s !! commit_file file);
                          "public=" +:+ fmt_bool (pushCmdPublic v);
                          "force=" +:+ fmt_bool (pushCmdForce v) ]
                        ++ (if decide (pushCmdLicence v ≠ EmptyString)
                            then ["licence=" +:+ url_QueryEscape (pushCmdLicence v)]
                            else []);
                      FileData := [{| sf_Filename := filepath_Base file;
                                      sf_Fieldname := "file1";
                                      sf_Content := data |}];
                      Errors := [] |})
    ∧ (∀ r res, EvHTTP r res ∈ events_of o →
         match res with
         | NetErrs _ => True
         | NetResp resp body =>
             StatusCode resp ≠ http_StatusCreated ∨ json_Unmarshal E body = None
         end →
         fs (state_of o) = fs s ∧ mtimes (state_of o) = mtimes s
         ∧ dirs (state_of o) = dirs s ∧ metadb (state_of o) = metadb s
         ∧ (∀ d, EvMetadataRequest d ∉ events_of o)
         ∧ result_of o = Err
             match res with
             | NetErrs _ => errors_New "Error when uploading database to the cloud"
             | NetResp resp body =>
                 if decide (StatusCode resp = http_StatusCreated)
                 then json_UnmarshalError body
                 else upload_failed resp
             end)
    ∧ (∀ p d w, EvWriteFile p d w ∈ events_of o →
         p = commit_file file
         ∧ (∃ r resp body m,
              EvHTTP r (NetResp resp body) ∈ events_of o
              ∧ StatusCode resp = http_StatusCreated
              ∧ json_Unmarshal E body = Some m
              ∧ d = default EmptyString (m !! "commit_id"))
         ∧ (∃ meta, remote_metadata E file = inr meta
              ∧ EvSaveMetadata file (json_MarshalIndent E meta) WriteOk ∈ events_of o
              ∧ metadb (state_of o) !! file = Some (json_MarshalIndent E meta)))
    ∧ (∀ d, EvMetadataRequest d ∈ events_of o →
         d = file
         ∧ ∃ r resp body,
             EvHTTP r (NetResp resp body) ∈ events_of o
             ∧ StatusCode resp = http_StatusCreated
             ∧ is_Some (json_Unmarshal E body))
    ∧ (length args ≠ 1%nat ∨ stat s file = None ∨ author = EmptyString
       ∨ email = EmptyString ∨ pushCmdMsg v = EmptyString →
         events_of o = [] ∧ state_of o = s ∧ result_of o ≠ Ok tt)).
Proof.
  match goal with |- runs _ _ ?P => set (Q := P) end.
  unfold pushCmd. run_all.
  all: subst Q; cbv beta; leaf_simpl; cbv zeta.
  all: absent_pointer_files s.
  all: split; [split_and!; first [reflexivity | (intros Hdb; first [reflexivity | contradiction])]|].
  all: split;
    [ split_and!;
      [ intros p Hp; rewrite ?lookup_insert_ne by (intros Heq; exact (Hp (eq_sym Heq)));
        split; reflexivity
      | reflexivity
      | intros d Hd; rewrite ?lookup_insert_ne by (intros Heq; exact (Hd (eq_sym Heq)));
        reflexivity ]
    | ].
  all: split;
    [ intros r res Hin; in_events Hin; injection Hin as -> _;
      (split; [lia|]);
      (split; [intros Ha; exfalso; from_disjunction|]);
      (split; [intros Ha; exfalso; from_disjunction|]);
      (split; [assumption|]);
      (eexists; (split; [eassumption|]));
      stat_of_file; file_contents; cbn [default fi_ModTime];
      destruct (decide (pushCmdLicence _ ≠ _));
      first [contradiction | reflexivity]
    | ].
  all: split;
    [ intros r res Hin; in_events Hin; injection Hin as _ ->;
      intros Hfail;
      first
        [ destruct Hfail as [Hfail|Hfail]; [contradiction | congruence]
        | (split; [reflexivity|]); (split; [reflexivity|]);
          (split; [reflexivity|]); (split; [reflexivity|]);
          (split; [intros d Hd; in_events Hd|]);
          lazy beta iota; try destruct (decide (StatusCode _ = _));
          first [reflexivity | contradiction | congruence] ]
    | ].
  all: split;
    [ intros p d w Hin; in_events Hin; injection Hin as -> -> _;
      (split; [reflexivity|]);
      (split;
       [ eexists _, _, _, _; (split; [event_here|]);
         (split; [by apply dec_stable|]); (split; [eassumption | reflexivity])
       | eexists; (split; [eassumption|]); (split; [event_here|]);
         apply lookup_insert_eq ])
    | ].
  all: split;
    [ intros d Hin; in_events Hin; injection Hin as ->;
      (split; [reflexivity|]);
      eexists _, _, _; (split; [event_here|]);
      (split; [by apply dec_stable|]); eexists; eassumption
    | ].
  all: intros Hpre;
    first
      [ (split; [reflexivity|]); (split; [reflexivity | discriminate])
      | exfalso; destruct Hpre as [Hpre|[Hpre|[Hpre|[Hpre|Hpre]]]];
        [ lia | congruence | from_disjunction | from_disjunction | contradiction ] ].
Qed.

(** X12: of the flag variables, a push changes none but the branch and the
    commit, which it replaces by the saved pointers, and the database name,
    which it sets only when it is empty. *)
Theorem push_keeps_other_flags E args s :
  let v := vars s in
  let v' := vars (state_of (pushCmd E args s)) in
  pullCmdBranch v' = pullCmdBranch v ∧ pullCmdCommit v' = pullCmdCommit v
  ∧ pushCmdEmail v' = pushCmdEmail v ∧ pushCmdLicence v' = pushCmdLicence v
  ∧ pushCmdMsg v' = pushCmdMsg v ∧ pushCmdName v' = pushCmdName v
  ∧ pushCmdForce v' = pushCmdForce v ∧ pushCmdPublic v' = pushCmdPublic v
  ∧ (pushCmdDB v ≠ EmptyString → pushCmdDB v' = pushCmdDB v).
Proof.
  destruct (push_runs E args s) as (Hflags & _). exact Hflags.
Qed.

(** X13: a push changes no file and no modification time other than those
    of the commit pointer of the database; in particular the database file
    itself is left as it is; it creates no directory; and it changes no
    stored metadata record other than the one of the database. *)
Theorem push_changes_only_commit_pointer E args s :
  let o := pushCmd E args s in
  let file := nth 0 args EmptyString in
  (∀ p, p ≠ commit_file file →
     fs (state_of o) !! p = fs s !! p
     ∧ mtimes (state_of o) !! p = mtimes s !! p)
  ∧ fs (state_of o) !! file = fs s !! file
  ∧ dirs (state_of o) = dirs s
  ∧ (∀ d, d ≠ file → metadb (state_of o) !! d = metadb s !! d).
Proof.
  destruct (push_runs E args s) as (_ & (Hfs & Hdirs & Hm) & _).
  intros o file. split; [exact Hfs|].
  split; [apply Hfs, commit_file_ne|]. split; [exact Hdirs | exact Hm].
Qed.

(** X14: an upload is sent only when exactly one argument was given, the
    file is there, and the author, the email and the commit message are not
    empty.  It is a multipart POST to the database of the user on the
    remote, named after the argument and not after the database name flag;
    it carries six queries, and a seventh for the licence when one was
    given; and it carries one file part, [file1], with the base name and
    the content of the file. *)
Theorem push_upload_request E args s r res :
  let file := nth 0 args EmptyString in
  let v := vars s in
  let author := if decide (pushCmdName v ≠ EmptyString) then pushCmdName v
                else default EmptyString (viper_author E) in
  let email := if decide (pushCmdEmail v ≠ EmptyString) then pushCmdEmail v
               else default EmptyString (viper_email E) in
  EvHTTP r res ∈ events_of (pushCmd E args s) →
  length args = 1%nat ∧ author ≠ EmptyString ∧ email ≠ EmptyString
  ∧ pushCmdMsg v ≠ EmptyString
  ∧ ∃ data, fs s !! file = Some data
      ∧ r = {| Method := "POST";
               Url := cloud E +:+ "/" +:+ certUser E +:+ "/" +:+ file;
               ContentType := "multipart";
               QueryData :=
                 [ "branch=" +:+ url_QueryEscape
                     (default (pushCmdBranch v) (fs s !! branch_file file));
                   "commitmsg=" +:+ url_QueryEscape (pushCmdMsg v);
                   "lastmodified=" +:+ url_QueryEscape
                     (time_Format E (default 0 (mtimes s !! file)));
                   "commit=" +:+ default (pushCmdCommit v)
                                   (fs s !! commit_file file);
                   "public=" +:+ fmt_bool (pushCmdPublic v);
                   "force=" +:+ fmt_bool (pushCmdForce v) ]
                 ++ (if decide (pushCmdLicence v ≠ EmptyString)
                     then ["licence=" +:+ url_QueryEscape (pushCmdLicence v)]
                     else []);
               FileData := [{| sf_Filename := filepath_Base file;
                               sf_Fieldname := "file1";
                               sf_Content := data |}];
               Errors := [] |}.
Proof.
  destruct (push_runs E args s) as (_ & _ & Hreq & _).
  intros file v author email Hin. exact (Hreq r res Hin).
Qed.

Lemma push_upload_request_witness :
  let s := Scenario.state (Scenario.flags EmptyString EmptyString "master" EmptyString)
             Scenario.untracked in
  let o := pushCmd (Scenario.push_env Scenario.created (Scenario.commit_body "abc123"))
             ["sales.db"] s in
  ∃ r res data,
    EvHTTP r res ∈ events_of o
    ∧ fs s !! "sales.db" = Some data
    ∧ Url r = "https://dbhub.io/alice/sales.db"
    ∧ FileData r = [{| sf_Filename := "sales.db"; sf_Fieldname := "file1";
                       sf_Content := data |}].
Proof.
  intros s o.
  assert (∃ r res rest, events_of o = EvHTTP r res :: rest) as (r & res & rest & Hev)
    by (vm_compute; eauto).
  assert (EvHTTP r res ∈ events_of o) as Hin
    by (rewrite Hev; apply list_elem_of_here).
  destruct (push_upload_request
              (Scenario.push_env Scenario.created (Scenario.commit_body "abc123"))
              ["sales.db"] s r res Hin) as (_ & _ & _ & _ & data & Hfs & Hr).
  exists r, res, data. split; [exact Hin|]. split; [exact Hfs|].
  rewrite Hr. split; reflexivity.
Defined.

(** X15: an upload that fails in transport, or is answered with another
    status than 201, or with a body that does not parse, ends the push with
    the files, the modification times, the directories and the stored
    metadata as they were; the metadata is not even requested; and the
    error is the one of the case. *)
Theorem push_failed_upload_changes_nothing E args s r res :
  let o := pushCmd E args s in
  EvHTTP r res ∈ events_of o →
  match res with
  | NetErrs _ => True
  | NetResp resp body =>
      StatusCode resp ≠ http_StatusCreated ∨ json_Unmarshal E body = None
  end →
  fs (state_of o) = fs s ∧ mtimes (state_of o) = mtimes s
  ∧ dirs (state_of o) = dirs s ∧ metadb (state_of o) = metadb s
  ∧ (∀ d, EvMetadataRequest d ∉ events_of o)
  ∧ result_of o = Err
      match res with
      | NetErrs _ => errors_New "Error when uploading database to the cloud"
      | NetResp resp body =>
          if decide (StatusCode resp = http_StatusCreated)
          then json_UnmarshalError body
          else upload_failed resp
      end.
Proof.
  destruct (push_runs E args s) as (_ & _ & _ & Hfail & _).
  intros o Hin Hres. exact (Hfail r res Hin Hres).
Qed.

Lemma push_failed_upload_changes_nothing_witness :
  let s := Scenario.state (Scenario.flags EmptyString EmptyString "master" EmptyString)
             Scenario.untracked in
  let o := pushCmd (Scenario.push_env Scenario.created "not json") ["sales.db"] s in
  fs (state_of o) = fs s
  ∧ metadb (state_of o) = metadb s
  ∧ result_of o = Err (json_UnmarshalError "not json").
Proof.
  intros s o.
  assert (∃ r rest, events_of o = EvHTTP r (NetResp Scenario.created "not json") :: rest)
    as (r & rest & Hev) by (vm_compute; eauto).
  assert (EvHTTP r (NetResp Scenario.created "not json") ∈ events_of o) as Hin
    by (rewrite Hev; apply list_elem_of_here).
  destruct (push_failed_upload_changes_nothing
              (Scenario.push_env Scenario.created "not json") ["sales.db"] s
              r (NetResp Scenario.created "not json") Hin)
    as (Hfs & _ & _ & Hm & _ & Hres).
  - right. reflexivity.
  - split; [exact Hfs|]. split; [exact Hm | exact Hres].
Defined.

(** X16: the only file a push ever writes to is the commit pointer of the
    database, and it writes to it only after the upload was answered with
    status 201 and a body that parsed, and after the metadata was
    retrieved and saved; what it writes is the commit id of the answer, or
    nothing when the answer holds none. *)
Theorem push_writes_pointer_after_refresh E args s p d w :
  let o := pushCmd E args s in
  let file := nth 0 args EmptyString in
  EvWriteFile p d w ∈ events_of o →
  p = commit_file file
  ∧ (∃ r resp body m,
       EvHTTP r (NetResp resp body) ∈ events_of o
       ∧ StatusCode resp = http_StatusCreated
       ∧ json_Unmarshal E body = Some m
       ∧ d = default EmptyString (m !! "commit_id"))
  ∧ (∃ meta, remote_metadata E file = inr meta
       ∧ EvSaveMetadata file (json_MarshalIndent E meta) WriteOk ∈ events_of o
       ∧ metadb (state_of o) !! file = Some (json_MarshalIndent E meta)).
Proof.
  destruct (push_runs E args s) as (_ & _ & _ & _ & Hw & _).
  intros o file Hin. exact (Hw p d w Hin).
Qed.

Lemma push_writes_pointer_after_refresh_witness :
  let o := pushCmd (Scenario.push_env Scenario.created (Scenario.commit_body "abc123"))
             ["sales.db"]
             (Scenario.state (Scenario.flags EmptyString EmptyString "master" EmptyString)
                Scenario.untracked) in
  ∃ record, metadb (state_of o) !! "sales.db" = Some record.
Proof.
  destruct (push_writes_pointer_after_refresh
              (Scenario.push_env Scenario.created (Scenario.commit_body "abc123"))
              ["sales.db"]
              (Scenario.state (Scenario.flags EmptyString EmptyString "master" EmptyString)
                 Scenario.untracked)
              (commit_file "sales.db") "abc123" WriteOk)
    as (_ & _ & meta & _ & _ & Hm).
  - vm_compute. do 3 apply list_elem_of_further. apply list_elem_of_here.
  - eexists. exact Hm.
Defined.

(** X17: a push requests the metadata of no other database than the one it
    uploads, and only after the upload was answered with status 201 and a
    body that parsed. *)
Theorem push_refreshes_after_accepted_upload E args s d :
  let o := pushCmd E args s in
  EvMetadataRequest d ∈ events_of o →
  d = nth 0 args EmptyString
  ∧ ∃ r resp body,
      EvHTTP r (NetResp resp body) ∈ events_of o
      ∧ StatusCode resp = http_StatusCreated
      ∧ is_Some (json_Unmarshal E body).
Proof.
  destruct (push_runs E args s) as (_ & _ & _ & _ & _ & Hm & _).
  intros o Hin. exact (Hm d Hin).
Qed.

Lemma push_refreshes_after_accepted_upload_witness :
  let o := pushCmd (Scenario.push_env Scenario.created (Scenario.commit_body "abc123"))
             ["sales.db"]
             (Scenario.state (Scenario.flags EmptyString EmptyString "master" EmptyString)
                Scenario.untracked) in
  ∃ r resp body,
    EvHTTP r (NetResp resp body) ∈ events_of o
    ∧ StatusCode resp = http_StatusCreated.
Proof.
  destruct (push_refreshes_after_accepted_upload
              (Scenario.push_env Scenario.created (Scenario.commit_body "abc123"))
              ["sales.db"]
              (Scenario.state (Scenario.flags EmptyString EmptyString "master" EmptyString)
                 Scenario.untracked)
              "sales.db")
    as (_ & r & resp & body & Hin & Hst & _).
  - vm_compute. apply list_elem_of_further, list_elem_of_here.
  - exists r, resp, body. split; [exact Hin | exact Hst].
Defined.

(** X18: the checks of a push come before everything else: with another
    number of arguments than one, a file that is not there, an empty author
    or email, or an empty commit message, the push fails without any event
    and with the state exactly as before. *)
Theorem push_validates_before_acting E args s :
  let o := pushCmd E args s in
  let file := nth 0 args EmptyString in
  let v := vars s in
  let author := if decide (pushCmdName v ≠ EmptyString) then pushCmdName v
                else default EmptyString (viper_author E) in
  let email := if decide (pushCmdEmail v ≠ EmptyString) then pushCmdEmail v
               else default EmptyString (viper_email E) in
  length args ≠ 1%nat ∨ stat s file = None ∨ author = EmptyString
  ∨ email = EmptyString ∨ pushCmdMsg v = EmptyString →
  events_of o = [] ∧ state_of o = s ∧ result_of o ≠ Ok tt.
Proof.
  destruct (push_runs E args s) as (_ & _ & _ & _ & _ & _ & Hpre).
  intros o file v author email H. exact (Hpre H).
Qed.

Lemma push_validates_before_acting_witness :
  let s := Scenario.state (Scenario.flags EmptyString EmptyString "master" EmptyString) ∅ in
  let o := pushCmd (Scenario.push_env Scenario.created (Scenario.commit_body "abc123"))
             ["sales.db"] s in
  events_of o = [] ∧ state_of o = s ∧ result_of o ≠ Ok tt.
Proof.
  intros s o.
  apply (push_validates_before_acting
           (Scenario.push_env Scenario.created (Scenario.commit_body "abc123"))
           ["sales.db"] s).
  right. left. reflexivity.
Defined.
